(** * AIO-VA-Key-Games-Tools: the binary pipeline, embedded and checked

    A shallow embedding of the Go sources of the toolkit (the Siglus LZ77
    codec and string obfuscation, the RealLive bytecode header, the RLdev
    metadata block, the SEEN archive validator, the range grammar, and the
    bytecode reader / disassembler), together with the properties that the
    design document states about them.

    Conventions.
    - A Go [[]byte] is a [list Z] whose elements lie in [0, 256); a Go
      [string] is a Rocq [string] (a sequence of 8-bit characters).
    - Go's [int] is [Z].  Where a value can leave the 64-bit range the
      wrap-around is written out with [GoInt.int64]; fixed-width conversions
      ([uint16], [int32], ...) are always written out.
    - A Go function has up to four outcomes: it returns a value, it returns
      an [error], it panics (index out of range), or -- for a loop that is
      run on fuel here -- the fuel runs out. *)

From stdpp Require Import base numbers option list gmap strings pretty sorting.
From Stdlib Require Import ZArith Lia Ascii.

Open Scope Z_scope.

(** ** Outcomes of a Go call *)

Inductive outcome (A : Type) : Type :=
  | Returns (a : A)
  | Fails (e : string)
  | Panics
  | OutOfFuel.
Arguments Returns {A} a.
Arguments Fails {A} e.
Arguments Panics {A}.
Arguments OutOfFuel {A}.

#[global] Instance outcome_ret : MRet outcome := fun _ a => Returns a.
#[global] Instance outcome_bind : MBind outcome := fun _ _ f m =>
  match m with
  | Returns a => f a
  | Fails e => Fails e
  | Panics => Panics
  | OutOfFuel => OutOfFuel
  end.

(** An index expression [l[i]]: panics outside [0, len(l)). *)
Definition index {A} (l : list A) (i : Z) : outcome A :=
  if decide (0 <= i) then
    match l !! Z.to_nat i with Some a => Returns a | None => Panics end
  else Panics.

(** An indexed store [l[i] = v]. *)
Definition store {A} (l : list A) (i : Z) (v : A) : outcome (list A) :=
  if decide (0 <= i < Z.of_nat (length l)) then Returns (<[Z.to_nat i := v]> l)
  else Panics.

(** A slice expression [l[i:]]. *)
Definition slice_from {A} (l : list A) (i : Z) : outcome (list A) :=
  if decide (0 <= i <= Z.of_nat (length l)) then Returns (drop (Z.to_nat i) l)
  else Panics.

(** A slice expression [l[i:j]] (capacity is taken to be the length). *)
Definition slice {A} (l : list A) (i j : Z) : outcome (list A) :=
  if decide (0 <= i <= j /\ j <= Z.of_nat (length l))
  then Returns (take (Z.to_nat (j - i)) (drop (Z.to_nat i) l))
  else Panics.

Definition len {A} (l : list A) : Z := Z.of_nat (length l).

(** ** Fixed-width integers *)

Module GoInt.
Definition unsigned (w x : Z) : Z := x mod 2 ^ w.
Definition signed (w x : Z) : Z := (x + 2 ^ (w - 1)) mod 2 ^ w - 2 ^ (w - 1).

Definition byte := unsigned 8.
Definition uint16 := unsigned 16.
Definition uint32 := unsigned 32.
Definition int32 := signed 32.
Definition int64 := signed 64.

Definition minInt : Z := - 2 ^ 63.
Definition maxInt : Z := 2 ^ 63 - 1.
Definition is_int (x : Z) : Prop := minInt <= x <= maxInt.
End GoInt.

(** ** encoding/binary, little endian *)

Module LittleEndian.
Definition Uint16 (b : list Z) : outcome Z :=
  match b with
  | b0 :: b1 :: _ => Returns (Z.lor b0 (Z.shiftl b1 8))
  | _ => Panics
  end.

Definition Uint32 (b : list Z) : outcome Z :=
  match b with
  | b0 :: b1 :: b2 :: b3 :: _ =>
      Returns (Z.lor (Z.lor b0 (Z.shiftl b1 8))
                     (Z.lor (Z.shiftl b2 16) (Z.shiftl b3 24)))
  | _ => Panics
  end.

Definition bytes16 (v : Z) : list Z :=
  [GoInt.byte v; GoInt.byte (Z.shiftr v 8)].

Definition bytes32 (v : Z) : list Z :=
  [GoInt.byte v; GoInt.byte (Z.shiftr v 8);
   GoInt.byte (Z.shiftr v 16); GoInt.byte (Z.shiftr v 24)].

(** [PutUint16(b[pos:], v)] seen from the whole slice [b]. *)
Definition PutUint16 (b : list Z) (pos v : Z) : outcome (list Z) :=
  if decide (0 <= pos /\ pos + 2 <= len b) then
    Returns (take (Z.to_nat pos) b ++ bytes16 v ++ drop (Z.to_nat pos + 2) b)
  else Panics.

Definition PutUint32 (b : list Z) (pos v : Z) : outcome (list Z) :=
  if decide (0 <= pos /\ pos + 4 <= len b) then
    Returns (take (Z.to_nat pos) b ++ bytes32 v ++ drop (Z.to_nat pos + 4) b)
  else Panics.
End LittleEndian.

(** * Siglus: LZ77 codec (siglus/compress.go) *)

Module Siglus.

Definition lookback : Z := 4096.
Definition level : Z := 17.
Definition acceptLevel : Z := 3.

(** *** Decompress *)

(** [for j := 0; j < copyLen && dst < decLen; j++ { out[dst] = out[dst-offset]; dst++ }] *)
Fixpoint copy_loop (n : nat) (decLen offset : Z) (out : list Z) (dst : Z)
  : outcome (list Z * Z) :=
  match n with
  | O => Returns (out, dst)
  | S n' =>
      if decide (dst < decLen) then
        v ← index out (dst - offset);
        out' ← store out dst v;
        copy_loop n' decLen offset out' (dst + 1)
      else Returns (out, dst)
  end.

(** The eight operations driven by one control byte:
    [for i := 0; i < 8 && dst < decLen; i++ { ... flag >>= 1 }]. *)
Fixpoint decompress_ops (i : nat) (decLen flag : Z) (src out : list Z) (dst : Z)
  : outcome (list Z * list Z * Z) :=
  match i with
  | O => Returns (src, out, dst)
  | S i' =>
      if decide (dst < decLen) then
        match src with
        | [] => Returns (src, out, dst)
        | b :: src1 =>
            if decide (Z.land flag 1 <> 0) then
              out' ← store out dst b;
              decompress_ops i' decLen (Z.shiftr flag 1) src1 out' (dst + 1)
            else
              match src with
              | _ :: _ :: src2 =>
                  ref ← LittleEndian.Uint16 src;
                  let copyLen := Z.land ref 15 + 2 in
                  let offset := Z.shiftr ref 4 in
                  '(out', dst') ← copy_loop (Z.to_nat copyLen) decLen offset out dst;
                  decompress_ops i' decLen (Z.shiftr flag 1) src2 out' dst'
              | _ => Returns (src, out, dst)
              end
        end
      else Returns (src, out, dst)
  end.

(** [for dst < decLen { if len(src) == 0 { break }; flag := src[0]; ... }].
    Every round consumes the control byte, so [length src] rounds of fuel
    are never used up. *)
Fixpoint decompress_loop (fuel : nat) (decLen : Z) (src out : list Z) (dst : Z)
  : outcome (list Z) :=
  if decide (dst < decLen) then
    match src with
    | [] => Returns out
    | flag :: src1 =>
        match fuel with
        | O => OutOfFuel
        | S fuel' =>
            '(src', out', dst') ← decompress_ops 8 decLen flag src1 out dst;
            decompress_loop fuel' decLen src' out' dst'
        end
    end
  else Returns out.

(** [Decompress]; the [nil] result for a short frame is the empty list. *)
Definition Decompress (data : list Z) : outcome (list Z) :=
  if decide (len data < 8) then Returns []
  else
    hdr ← slice data 4 8;
    decLen ← LittleEndian.Uint32 hdr;
    src ← slice_from data 8;
    decompress_loop (length src) decLen src (replicate (Z.to_nat decLen) 0) 0.

(** *** searchData *)

(** [for matchLen < maxMatch && buf[start+matchLen] == buf[pos+matchLen] { matchLen++ }] *)
Fixpoint match_loop (n : nat) (buf : list Z) (start pos maxMatch matchLen : Z)
  : outcome Z :=
  if decide (matchLen < maxMatch) then
    match n with
    | O => OutOfFuel
    | S n' =>
        a ← index buf (start + matchLen);
        b ← index buf (pos + matchLen);
        if decide (a = b) then match_loop n' buf start pos maxMatch (matchLen + 1)
        else Returns matchLen
    end
  else Returns matchLen.

(** [for off := 1; off <= maxSearch; off++ { ... }], returning
    [(bestOff, bestLen)]. *)
Fixpoint search_loop (n : nat) (buf : list Z) (pos maxSearch maxMatch : Z)
    (off bestOff bestLen : Z) : outcome (Z * Z) :=
  if decide (off <= maxSearch) then
    match n with
    | O => OutOfFuel
    | S n' =>
        matchLen ← match_loop (Z.to_nat maxMatch) buf (pos - off) pos maxMatch 0;
        let '(bestOff', bestLen') :=
          if decide (matchLen > bestLen) then (off, matchLen) else (bestOff, bestLen) in
        if decide (bestLen' = maxMatch) then Returns (bestOff', bestLen')
        else search_loop n' buf pos maxSearch maxMatch (off + 1) bestOff' bestLen'
    end
  else Returns (bestOff, bestLen).

Definition searchData (buf : list Z) (pos : Z) : outcome (Z * Z) :=
  if decide (pos < acceptLevel) then Returns (0, 0)
  else
    let maxSearch := if decide (pos > lookback) then lookback else pos in
    let maxMatch := if decide (pos + level > len buf) then len buf - pos else level in
    if decide (maxMatch < acceptLevel) then Returns (0, 0)
    else
      '(bestOff, bestLen) ←
        search_loop (Z.to_nat maxSearch) buf pos maxSearch maxMatch 1 0 0;
      if decide (bestLen < acceptLevel) then Returns (0, 0)
      else Returns (bestOff, bestLen - 2).

(** *** Compress *)

(** The back-reference token: [uint16((offset << 4) | (mlen & 0x0F))]. *)
Definition token (offset mlen : Z) : Z :=
  GoInt.uint16 (Z.lor (Z.shiftl offset 4) (Z.land mlen 15)).

(** State of the encoder between operations. *)
Record cstate := CState {
  c_out : list Z;
  c_outPos : Z;
  c_inPos : Z
}.

(** The body of [for i := 0; i < 8; i++], with the control byte being
    accumulated. *)
Fixpoint compress_ops (n : nat) (inp : list Z) (i : Z) (st : cstate) (ctrlByte : Z)
  : outcome (cstate * Z) :=
  match n with
  | O => Returns (st, ctrlByte)
  | S n' =>
      let srcLen := len inp in
      if decide (c_inPos st >= srcLen) then Returns (st, ctrlByte)
      else
        '(offset, mlen) ← searchData inp (c_inPos st);
        '(st', ctrlByte') ←
          (if decide (offset = 0) then
             let out := if decide (c_outPos st >= len (c_out st))
                        then c_out st ++ [0] else c_out st in
             b ← index inp (c_inPos st);
             out' ← store out (c_outPos st) b;
             Returns (CState out' (c_outPos st + 1) (c_inPos st + 1),
                      GoInt.byte (Z.lor ctrlByte (Z.shiftl 1 i)))
           else
             let ref := token offset mlen in
             let out := if decide (c_outPos st + 1 >= len (c_out st))
                        then c_out st ++ [0; 0] else c_out st in
             out' ← LittleEndian.PutUint16 out (c_outPos st) ref;
             Returns (CState out' (c_outPos st + 2) (c_inPos st + (mlen + 2)),
                      ctrlByte));
        if decide (c_inPos st' >= srcLen) then Returns (st', ctrlByte')
        else compress_ops n' inp (i + 1) st' ctrlByte'
  end.

(** One round of the outer loop: reserve the control byte, run up to eight
    operations, write the control byte back. *)
Definition compress_round (inp : list Z) (st : cstate) : outcome cstate :=
  let ctrlPos := c_outPos st in
  '(st', ctrlByte) ←
    compress_ops 8 inp 0 (CState (c_out st) (c_outPos st + 1) (c_inPos st)) 0;
  if decide (ctrlPos < len (c_out st')) then
    out' ← store (c_out st') ctrlPos ctrlByte;
    Returns (CState out' (c_outPos st') (c_inPos st'))
  else Returns st'.

(** [for inPos <= srcLen { ... }] *)
Fixpoint compress_loop (fuel : nat) (inp : list Z) (st : cstate) : outcome cstate :=
  if decide (c_inPos st <= len inp) then
    match fuel with
    | O => OutOfFuel
    | S fuel' =>
        st' ← compress_round inp st;
        compress_loop fuel' inp st'
    end
  else Returns st.

(** The epilogue: write [complen] and [declen], cut the buffer. *)
Definition compress_finish (inp : list Z) (st : cstate) : outcome (list Z) :=
  let compLen := c_outPos st in
  out1 ← LittleEndian.PutUint32 (c_out st) 0 (GoInt.uint32 compLen);
  out2 ← LittleEndian.PutUint32 out1 4 (GoInt.uint32 (len inp));
  slice out2 0 compLen.

Definition compress_init (inp : list Z) : cstate :=
  CState (replicate (Z.to_nat (8 + len inp * 2)) 0) 8 0.

Definition Compress (fuel : nat) (inp : list Z) : outcome (list Z) :=
  st ← compress_loop fuel inp (compress_init inp);
  compress_finish inp st.

(** *** Per-index string obfuscation (DumpSS / encryptString) *)

(** [key := uint16(index * 0x7087)], the product taken in Go's 64-bit [int]. *)
Definition key (index : Z) : Z := GoInt.uint16 (GoInt.int64 (index * 0x7087)).

(** [for j := range u16 { u16[j] ^= key }] *)
Definition xor_units (k : Z) (u16 : list Z) : list Z :=
  (fun u => Z.lxor u k) <$> u16.

(** The code units written by [encryptString] for already encoded text. *)
Definition encrypt_units (index : Z) (u16 : list Z) : list Z :=
  xor_units (key index) u16.

(** The code units obtained by [DumpSS] for string [i] before decoding. *)
Definition decrypt_units (i : Z) (u16 : list Z) : list Z :=
  xor_units (key i) u16.

End Siglus.


(** * Strings and bytes *)

Definition byte_char (b : Z) : ascii := Ascii.ascii_of_N (Z.to_N b).
Definition char_byte (c : ascii) : Z := Z.of_N (Ascii.N_of_ascii c).

(** [string(b)] for a byte slice [b]. *)
Fixpoint string_of_bytes (b : list Z) : string :=
  match b with
  | [] => EmptyString
  | x :: b' => String (byte_char x) (string_of_bytes b')
  end.

(** The one-character string made of a double quote. *)
Definition dquote : string := String (byte_char 0x22) EmptyString.

(** [[]byte(s)] *)
Fixpoint bytes_of_string (s : string) : list Z :=
  match s with
  | EmptyString => []
  | String c s' => char_byte c :: bytes_of_string s'
  end.

(** * binarray: typed little-endian reads over a byte slice *)

Module Binarray.

(** [type Buffer struct { Data []byte }] *)
Definition Buffer := list Z.

Definition Len (b : Buffer) : Z := len b.

Definition GetU8 (b : Buffer) (idx : Z) : outcome Z := index b idx.

(** [int32(binary.LittleEndian.Uint32(b.Data[idx:]))] *)
Definition GetInt (b : Buffer) (idx : Z) : outcome Z :=
  s ← slice_from b idx;
  v ← LittleEndian.Uint32 s;
  mret (GoInt.int32 v).

Definition GetInt32 (b : Buffer) (idx : Z) : outcome Z := GetInt b idx.

(** [string(b.Data[idx : idx+length])] *)
Definition Read (b : Buffer) (idx length : Z) : outcome string :=
  s ← slice b idx (idx + length);
  mret (string_of_bytes s).

(** The prefix of [data] before its first NUL (all of it when there is none). *)
Fixpoint until_nul (data : list Z) : list Z :=
  match data with
  | [] => []
  | c :: data' => if decide (c = 0) then [] else c :: until_nul data'
  end.

Definition ReadSz (b : Buffer) (idx length : Z) : outcome string :=
  data ← slice b idx (idx + length);
  mret (string_of_bytes (until_nul data)).

End Binarray.

(** * bytecode: file headers *)

Module Bytecode.
Import Binarray.

Definition HeaderV1 : Z := 1.
Definition HeaderV2 : Z := 2.

Definition magicKP2K : string := "KP2K".
Definition magicRD2K : string := "RD2K".
Definition magicKPRL : string := "KPRL".
Definition magicRDRL : string := "RDRL".
Definition magicKPRM : string := "KPRM".
Definition magicRDRM : string := "RDRM".
Definition magicD001 : string := string_of_bytes [0xd0; 0x01; 0x00; 0x00].
Definition magicCC01 : string := string_of_bytes [0xcc; 0x01; 0x00; 0x00].
Definition magicB801 : string := string_of_bytes [0xb8; 0x01; 0x00; 0x00].

Record FileHeader := mkFileHeader {
  HeaderVersion : Z;
  CompilerVersion : Z;
  DataOffset : Z;
  UncompressedSize : Z;
  CompressedSize : Z;
  IsCompressed : bool;
  Int0x2C : Z;
  EntryPoints : list Z;
  KidokuLnums : list Z;
  DramatisPersonae : list string;
  Archived : bool
}.

(** The zero value [FileHeader{}]. *)
Definition zeroHeader : FileHeader :=
  mkFileHeader 0 0 0 0 0 false 0 (replicate 100 0) [] [] false.

(** [EmptyHeader()]: everything zero but [CompressedSize: -1]. *)
Definition EmptyHeader : FileHeader :=
  mkFileHeader 0 0 0 0 (-1) false 0 (replicate 100 0) [] [] false.

Definition IsBytecode (arr : Buffer) (idx : Z) : outcome bool :=
  if decide (idx + 8 > Len arr) then mret false
  else
    id ← Read arr idx 4;
    if bool_decide (id ∈ [magicRDRL; magicRD2K; magicRDRM]) then mret true
    else if bool_decide (id ∈ [magicKPRL; magicKP2K; magicKPRM;
                               magicD001; magicCC01; magicB801]) then
      ver ← GetInt arr (idx + 4);
      mret (bool_decide (ver = 10002 \/ ver = 110002 \/ ver = 1110002))
    else mret false.

Definition UncompressedHeader (magic : string) : bool :=
  bool_decide (magic ∈ [magicKPRL; magicKP2K; magicKPRM;
                        magicRDRL; magicRD2K; magicRDRM]).

Definition ReadFileHeader (arr : Buffer) (archived : bool) : outcome FileHeader :=
  ok ← IsBytecode arr 0;
  if negb ok then Fails "not a bytecode file"
  else
    magic ← Read arr 0 4;
    compilerVersion ←
      (if bool_decide (String.substring 0 2 magic = "RD") then
         if bool_decide (String.substring 2 2 magic = "RM") then mret 110002
         else mret 10002
       else GetInt arr 4);
    if bool_decide (magic ∈ [magicKP2K; magicRD2K; magicCC01]) then
      n ← GetInt arr 0x20;
      usize ← GetInt arr 0x24;
      i2c ← GetInt arr 0x28;
      mret (mkFileHeader HeaderV1 compilerVersion (0x1cc + n * 4) usize (-1) false
                         i2c (replicate 100 0) [] [] archived)
    else if bool_decide (magic ∈ [magicKPRL; magicRDRL; magicKPRM;
                                  magicRDRM; magicD001]) then
      doff ← GetInt arr 0x20;
      usize ← GetInt arr 0x24;
      compSize ← GetInt arr 0x28;
      i2c ← GetInt arr 0x2c;
      mret (mkFileHeader HeaderV2 compilerVersion doff usize
                         (if decide (compSize > 0) then compSize else -1)
                         (bool_decide (compSize > 0))
                         i2c (replicate 100 0) [] [] archived)
    else Fails "unsupported header format".

(** [for i := 0; i < n; i++ { t[i] = arr.GetInt(base + i*4) }] *)
Fixpoint read_table (n : nat) (arr : Buffer) (off : Z) : outcome (list Z) :=
  match n with
  | O => mret []
  | S n' =>
      v ← GetInt arr off;
      rest ← read_table n' arr (off + 4);
      mret (v :: rest)
  end.

(** The dramatis personae loop: [u32 length] then the name, [count] times. *)
Fixpoint read_names (n : nat) (arr : Buffer) (offset : Z) : outcome (list string) :=
  match n with
  | O => mret []
  | S n' =>
      nameLen ← GetInt arr offset;
      name ← ReadSz arr (offset + 4) nameLen;
      rest ← read_names n' arr (offset + (4 + nameLen));
      mret (name :: rest)
  end.

(** [make([]T, n)] panics on a negative length. *)
Definition make_len (n : Z) : outcome nat :=
  if decide (n < 0) then Panics else mret (Z.to_nat n).

Definition ReadFullHeader (arr : Buffer) (archived : bool) : outcome FileHeader :=
  hdr ← ReadFileHeader arr archived;
  if decide (HeaderVersion hdr = HeaderV1) then
    eps ← read_table 100 arr 0x30;
    count ← GetInt arr 0x20;
    n ← make_len count;
    kid ← read_table n arr 0x1cc;
    mret (mkFileHeader (HeaderVersion hdr) (CompilerVersion hdr) (DataOffset hdr)
            (UncompressedSize hdr) (CompressedSize hdr) (IsCompressed hdr)
            (Int0x2C hdr) eps kid (DramatisPersonae hdr) (Archived hdr))
  else if decide (HeaderVersion hdr = HeaderV2) then
    eps ← read_table 100 arr 0x34;
    t1Offset ← GetInt arr 0x08;
    count ← GetInt arr 0x0c;
    n ← make_len count;
    kid ← read_table n arr t1Offset;
    dpOffset ← GetInt arr 0x14;
    dpCount ← GetInt arr 0x18;
    dn ← make_len dpCount;
    names ← read_names dn arr dpOffset;
    mret (mkFileHeader (HeaderVersion hdr) (CompilerVersion hdr) (DataOffset hdr)
            (UncompressedSize hdr) (CompressedSize hdr) (IsCompressed hdr)
            (Int0x2C hdr) eps kid names (Archived hdr))
  else mret hdr.

End Bytecode.

(** * metadata: the RLdev block inside a header *)

Module Metadata.
Import Binarray.

Inductive TextTransform :=
  | TransformNone | TransformChinese | TransformWestern | TransformKorean.

Record Metadata := mkMetadata {
  CompilerName : string;
  CompilerVersion : Z;
  TargetVersion : Z * Z * Z * Z;
  Transform : TextTransform
}.

Definition Empty : Metadata := mkMetadata EmptyString 0 (0, 0, 0, 0) TransformNone.

Definition transform_of_byte (b : Z) : TextTransform :=
  if decide (b = 1) then TransformChinese
  else if decide (b = 2) then TransformWestern
  else if decide (b = 3) then TransformKorean
  else TransformNone.

Definition Read (arr : Buffer) (idx : Z) : outcome Metadata :=
  if decide (idx + 8 > Len arr) then mret Empty
  else
    metaLen ← GetInt arr idx;
    idLen0 ← GetInt arr (idx + 4);
    let idLen := idLen0 + 1 in
    if decide (metaLen < idLen + 17) then mret Empty
    else
      let idx2 := idx + 8 + idLen in
      name ← ReadSz arr (idx + 8) idLen;
      ver ← GetInt arr idx2;
      t0 ← GetU8 arr (idx2 + 4);
      t1 ← GetU8 arr (idx2 + 5);
      t2 ← GetU8 arr (idx2 + 6);
      t3 ← GetU8 arr (idx2 + 7);
      tt ← GetU8 arr (idx2 + 8);
      mret (mkMetadata name ver (t0, t1, t2, t3) (transform_of_byte tt)).

End Metadata.

(** * Go library functions used by the range grammar *)

Module GoLib.

(** *** strings.TrimSpace, on the UTF-8 bytes of the string *)

Definition ascii_space (c : Z) : bool :=
  bool_decide (c = 9 \/ c = 10 \/ c = 11 \/ c = 12 \/ c = 13 \/ c = 32).

(** One leading white-space rune ([unicode.IsSpace]) removed, if there is one:
    the ASCII ones, U+0085, U+00A0, U+1680, U+2000..U+200A, U+2028, U+2029,
    U+202F, U+205F, U+3000. *)
Definition drop_space (b : list Z) : option (list Z) :=
  match b with
  | c :: r =>
      if ascii_space c then Some r
      else match b with
           | 0xC2 :: c1 :: r2 =>
               if bool_decide (c1 = 0x85 \/ c1 = 0xA0) then Some r2 else None
           | 0xE1 :: 0x9A :: 0x80 :: r3 => Some r3
           | 0xE2 :: 0x80 :: c2 :: r3 =>
               if bool_decide (0x80 <= c2 <= 0x8A \/ c2 = 0xA8 \/ c2 = 0xA9 \/ c2 = 0xAF)
               then Some r3 else None
           | 0xE2 :: 0x81 :: 0x9F :: r3 => Some r3
           | 0xE3 :: 0x80 :: 0x80 :: r3 => Some r3
           | _ => None
           end
  | [] => None
  end.

(** The same for one trailing rune, on the reversed bytes. *)
Definition drop_space_rev (b : list Z) : option (list Z) :=
  match b with
  | c :: r =>
      if ascii_space c then Some r
      else match b with
           | c1 :: 0xC2 :: r2 =>
               if bool_decide (c1 = 0x85 \/ c1 = 0xA0) then Some r2
               else match b with
                    | 0x80 :: 0x9A :: 0xE1 :: r3 => Some r3
                    | c2 :: 0x80 :: 0xE2 :: r3 =>
                        if bool_decide (0x80 <= c2 <= 0x8A \/ c2 = 0xA8 \/ c2 = 0xA9 \/ c2 = 0xAF)
                        then Some r3 else None
                    | 0x9F :: 0x81 :: 0xE2 :: r3 => Some r3
                    | 0x80 :: 0x80 :: 0xE3 :: r3 => Some r3
                    | _ => None
                    end
           | 0x80 :: 0x9A :: 0xE1 :: r3 => Some r3
           | c2 :: 0x80 :: 0xE2 :: r3 =>
               if bool_decide (0x80 <= c2 <= 0x8A \/ c2 = 0xA8 \/ c2 = 0xA9 \/ c2 = 0xAF)
               then Some r3 else None
           | 0x9F :: 0x81 :: 0xE2 :: r3 => Some r3
           | 0x80 :: 0x80 :: 0xE3 :: r3 => Some r3
           | _ => None
           end
  | [] => None
  end.

Fixpoint trim_with (step : list Z -> option (list Z)) (n : nat) (b : list Z) : list Z :=
  match n with
  | O => b
  | S n' => match step b with
            | Some r => trim_with step n' r
            | None => b
            end
  end.

Definition TrimSpace (s : string) : string :=
  let b := bytes_of_string s in
  let l := trim_with drop_space (length b) b in
  string_of_bytes (rev (trim_with drop_space_rev (length l) (rev l))).

(** *** strconv.Atoi *)

Definition is_digit (c : Z) : bool := bool_decide (48 <= c <= 57).

Definition decimal (ds : list Z) : Z :=
  fold_left (fun acc d => acc * 10 + (d - 48)) ds 0.

(** [strconv.Atoi]: the value and whether [err == nil].  A syntax error
    yields 0; a range error yields the nearest bound. *)
Definition Atoi (s : string) : Z * bool :=
  let b := bytes_of_string s in
  let '(neg, ds) :=
    match b with
    | 45 :: r => (true, r)
    | 43 :: r => (false, r)
    | _ => (false, b)
    end in
  match ds with
  | [] => (0, false)
  | _ =>
      if forallb is_digit ds then
        let v := decimal ds in
        if neg then
          if decide (v <= 2 ^ 63) then (- v, true) else (GoInt.minInt, false)
        else
          if decide (v <= GoInt.maxInt) then (v, true) else (GoInt.maxInt, false)
      else (0, false)
  end.

(** *** The three regular expressions of ParseRanges *)

(** [(\d+)] at the front: the longest run of digits and the rest. *)
Fixpoint digits (b : list Z) : list Z * list Z :=
  match b with
  | c :: r => if is_digit c then let '(d, r') := digits r in (c :: d, r')
              else ([], b)
  | [] => ([], [])
  end.

Definition is_sep (c : Z) : bool := bool_decide (c = 45 \/ c = 126 \/ c = 46).

(** [^(\d+)[-~.](\d+)$]: the two submatches. *)
Definition match_range (b : list Z) : option (string * string) :=
  match digits b with
  | ((_ :: _) as d1, c :: r) =>
      if is_sep c then
        match digits r with
        | ((_ :: _) as d2, []) => Some (string_of_bytes d1, string_of_bytes d2)
        | _ => None
        end
      else None
  | _ => None
  end.

Definition rangeRe (s : string) : option (string * string) :=
  match_range (bytes_of_string s).

(** [^!(\d+)[-~.](\d+)$] *)
Definition negRangeRe (s : string) : option (string * string) :=
  match bytes_of_string s with
  | 33 :: r => match_range r
  | _ => None
  end.

(** [^!(\d+)$] *)
Definition negRe (s : string) : option string :=
  match bytes_of_string s with
  | 33 :: r => match digits r with
               | ((_ :: _) as d, []) => Some (string_of_bytes d)
               | _ => None
               end
  | _ => None
  end.

(** *** sort.Ints: ascending order *)
Definition sort_Ints (l : list Z) : list Z := merge_sort Z.le l.

End GoLib.

(** * kprl: the SEEN archive and the range grammar (archiver.go) *)

Module Kprl.
Import Binarray.

Definition MaxSeens : Z := 10000.
Definition IndexSize : Z := MaxSeens * 8.

Definition emptyArcMagic : string :=
  String (byte_char 0) "Empty RealLive archive".

Record SeenEntry := mkSeenEntry { Offset : Z; Length : Z }.

Definition getSubfileInfo (arc : Buffer) (idx : Z) : outcome SeenEntry :=
  if decide (Len arc <= 23) then mret (mkSeenEntry 0 0)
  else
    let off := idx * 8 in
    o ← GetInt arc off;
    l ← GetInt arc (off + 4);
    mret (mkSeenEntry o l).

(** The validity test of one non-empty slot, with Go's short-circuit [&&]. *)
Definition slot_valid (arr : Buffer) (entry : SeenEntry) : outcome bool :=
  if decide (Offset entry + Length entry > IndexSize) then
    if decide (Offset entry + Length entry <= Len arr) then
      Bytecode.IsBytecode arr (Offset entry)
    else mret false
  else mret false.

(** [for i := 0; i < MaxSeens; i++ { ... }], [n] slots still to visit. *)
Fixpoint seen_loop (n : nat) (arr : Buffer) (i count : Z) : outcome Z :=
  match n with
  | O => mret count
  | S n' =>
      entry ← getSubfileInfo arr i;
      if decide (Length entry = 0) then seen_loop n' arr (i + 1) count
      else
        ok ← slot_valid arr entry;
        if ok : bool then seen_loop n' arr (i + 1) (count + 1)
        else if decide (count > 0) then mret (- count)
        else mret (-1)
  end.

Definition SeenCount (arr : Buffer) : outcome Z :=
  marker ← (if decide (Len arr >= 23) then
              m ← Read arr 0 23; mret (bool_decide (m = emptyArcMagic))
            else mret false);
  if marker : bool then mret 0
  else if decide (Len arr < IndexSize) then mret (-1)
  else seen_loop (Z.to_nat MaxSeens) arr 0 0.

(** *** ParseRanges *)

(** The indices visited by [for i := start; i <= end && i < MaxSeens; i++]. *)
Fixpoint range_indices (n : nat) (i end_ : Z) : list Z :=
  match n with
  | O => []
  | S n' =>
      if decide (i <= end_ /\ i < MaxSeens) then i :: range_indices n' (i + 1) end_
      else []
  end.

Definition indices (start end_ : Z) : list Z :=
  range_indices (Z.to_nat (MaxSeens - start)) start end_.

(** The loop over the arguments; [result] and [excluded] are the two
    accumulators, an [error] ends the loop. *)
Fixpoint parse_args (args : list string) (result : list Z) (excluded : gset Z)
  : outcome (list Z * gset Z) :=
  match args with
  | [] => mret (result, excluded)
  | arg0 :: rest =>
      let arg := GoLib.TrimSpace arg0 in
      if bool_decide (arg = EmptyString) then parse_args rest result excluded
      else
        match GoLib.negRangeRe arg with
        | Some (m1, m2) =>
            let start := (GoLib.Atoi m1).1 in
            let end_ := (GoLib.Atoi m2).1 in
            parse_args rest result (excluded ∪ list_to_set (indices start end_))
        | None =>
            match GoLib.negRe arg with
            | Some m1 =>
                let idx := (GoLib.Atoi m1).1 in
                parse_args rest result (excluded ∪ {[ idx ]})
            | None =>
                match GoLib.rangeRe arg with
                | Some (m1, m2) =>
                    let start := (GoLib.Atoi m1).1 in
                    let end_ := (GoLib.Atoi m2).1 in
                    parse_args rest (result ++ indices start end_) excluded
                | None =>
                    let '(idx, ok) := GoLib.Atoi arg in
                    if ok then
                      if decide (idx >= 0 /\ idx < MaxSeens)
                      then parse_args rest (result ++ [idx]) excluded
                      else parse_args rest result excluded
                    else Fails ("malformed range parameter: " +:+ arg)
                end
            end
        end
  end.

(** [ParseRanges]; the [nil] list returned for no arguments ("all") is [[]]. *)
Definition ParseRanges (args : list string) : outcome (list Z) :=
  match args with
  | [] => mret []
  | _ =>
      '(result, excluded) ← parse_args args [] ∅;
      let result' :=
        if decide (result = [] /\ excluded <> ∅) then
          filter (fun i => i ∉ excluded) (seqZ 0 MaxSeens)
        else if decide (excluded <> ∅) then
          filter (fun i => i ∉ excluded) result
        else result in
      mret (GoLib.sort_Ints result')
  end.

End Kprl.


(** * fmt verbs used by the disassembler *)

Module Fmt.

(** [%d] *)
Definition d (v : Z) : string := pretty v.

Fixpoint zeros (n : nat) : string :=
  match n with O => EmptyString | S n' => String "0" (zeros n') end.

(** [%0wd]: the sign counts towards the width, the padding follows it. *)
Definition d0 (w : nat) (v : Z) : string :=
  let digits := pretty (Z.abs v) in
  if decide (v < 0) then
    "-" +:+ zeros (w - 1 - String.length digits) +:+ digits
  else zeros (w - String.length digits) +:+ digits.

Definition hex_digit (v : Z) : ascii :=
  if decide (v < 10) then byte_char (48 + v) else byte_char (87 + v).

(** [%02x] of a byte. *)
Definition x02 (b : Z) : string :=
  String (hex_digit (b / 16)) (String (hex_digit (b mod 16)) EmptyString).

(** [strings.Join(args, sep)] *)
Fixpoint join (sep : string) (l : list string) : string :=
  match l with
  | [] => EmptyString
  | [a] => a
  | a :: l' => a +:+ sep +:+ join sep l'
  end.

End Fmt.

(** * disasm: the bytecode reader and the disassembler *)

Module Disasm.

Inductive EngineMode := ModeNone | ModeRealLive | ModeAvg2000 | ModeKinetic.

#[global] Instance EngineMode_eq_dec : EqDecision EngineMode.
Proof. solve_decision. Defined.

(** *** Calls on a mutable receiver

    A method with a pointer receiver of type [S] returning [(A, error)]
    leaves the receiver changed also when it returns an error. *)

Inductive res (A : Type) : Type :=
  | Ok (a : A)
  | Err (e : string).
Arguments Ok {A} a.
Arguments Err {A} e.

Definition M (S A : Type) : Type := S -> outcome (res A * S).

#[global] Instance M_ret {S} : MRet (M S) := fun _ a s => Returns (Ok a, s).

(** Sequencing with [if err != nil { return ..., err }]. *)
#[global] Instance M_bind {S} : MBind (M S) := fun _ _ f m s =>
  match m s with
  | Returns (Ok a, s') => f a s'
  | Returns (Err e, s') => Returns (Err e, s')
  | Fails e => Fails e
  | Panics => Panics
  | OutOfFuel => OutOfFuel
  end.

(** A call whose error is inspected (or dropped) by the caller. *)
Definition attempt {S A} (m : M S A) : M S (res A) := fun s =>
  match m s with
  | Returns (x, s') => Returns (Ok x, s')
  | Fails e => Fails e
  | Panics => Panics
  | OutOfFuel => OutOfFuel
  end.

Definition fail {S A} (e : string) : M S A := fun s => Returns (Err e, s).
Definition out_of_fuel {S A} : M S A := fun _ => OutOfFuel.
Definition get {S} : M S S := fun s => Returns (Ok s, s).
Definition modify {S} (f : S -> S) : M S unit := fun s => Returns (Ok tt, f s).
Definition lift_outcome {S A} (o : outcome A) : M S A := fun s =>
  a ← o; Returns (Ok a, s).

(** *** Reader *)

Record Reader := mkReader {
  data : list Z;
  pos : Z;
  origin : Z;
  limit : Z;
  mode : EngineMode
}.

Definition NewReader (data : list Z) (origin limit : Z) (mode : EngineMode) : Reader :=
  mkReader data origin origin limit mode.

Definition set_pos (r : Reader) (p : Z) : Reader :=
  mkReader (data r) p (origin r) (limit r) (mode r).

Definition Pos (r : Reader) : Z := pos r.
Definition RelPos (r : Reader) : Z := GoInt.int64 (pos r - origin r).
Definition AtEnd (r : Reader) : bool := bool_decide (pos r >= limit r).

Definition Next : M Reader Z := fun r =>
  if decide (pos r >= limit r) then Returns (Err "end of data", r)
  else
    b ← index (data r) (pos r);
    Returns (Ok b, set_pos r (GoInt.int64 (pos r + 1))).

Definition Peek : M Reader Z := fun r =>
  if decide (pos r >= limit r) then Returns (Err "end of data", r)
  else
    b ← index (data r) (pos r);
    Returns (Ok b, r).

Definition ReadInt32 : M Reader Z := fun r =>
  if decide (GoInt.int64 (pos r + 4) > limit r)
  then Returns (Err "not enough data for int32", r)
  else
    s ← slice_from (data r) (pos r);
    v ← LittleEndian.Uint32 s;
    Returns (Ok (GoInt.int32 v), set_pos r (GoInt.int64 (pos r + 4))).

Definition ReadUint16 : M Reader Z := fun r =>
  if decide (GoInt.int64 (pos r + 2) > limit r)
  then Returns (Err "not enough data for uint16", r)
  else
    s ← slice_from (data r) (pos r);
    v ← LittleEndian.Uint16 s;
    Returns (Ok v, set_pos r (GoInt.int64 (pos r + 2))).

Definition GetInt : M Reader Z := ReadInt32.
Definition GetInt16 : M Reader Z := ReadUint16.

Definition GetIntForMode : M Reader Z := fun r =>
  if decide (mode r = ModeAvg2000) then GetInt r else GetInt16 r.

Definition Expect (expected : Z) (context : string) : M Reader unit := fun r =>
  match Next r with
  | Returns (Err _, r') => Returns (Err (context +:+ ": got EOF"), r')
  | Returns (Ok b, r') =>
      if decide (b <> expected) then Returns (Err (context +:+ ": unexpected byte"), r')
      else Returns (Ok tt, r')
  | Fails e => Fails e
  | Panics => Panics
  | OutOfFuel => OutOfFuel
  end.

Definition Rollback (n : Z) : M Reader unit := fun r =>
  let p := GoInt.int64 (pos r - n) in
  Returns (Ok tt, set_pos r (if decide (p < origin r) then origin r else p)).

Definition Skip (n : Z) : M Reader unit := fun r =>
  Returns (Ok tt, set_pos r (GoInt.int64 (pos r + n))).

(** *** Expression grammar *)

Definition bool_op (b : Z) : option string :=
  if decide (b = 0x3c) then Some " && "
  else if decide (b = 0x3d) then Some " || "
  else None.

Definition cond_op (b : Z) : option string :=
  if decide (b = 0x28) then Some "=="
  else if decide (b = 0x29) then Some "!="
  else if decide (b = 0x2a) then Some "<="
  else if decide (b = 0x2b) then Some "<"
  else if decide (b = 0x2c) then Some ">="
  else if decide (b = 0x2d) then Some ">"
  else None.

Definition arith_op (b : Z) : option string :=
  if decide (b = 0x00) then Some "+"
  else if decide (b = 0x01) then Some "-"
  else if decide (b = 0x02) then Some "*"
  else if decide (b = 0x03) then Some "/"
  else if decide (b = 0x04) then Some "%"
  else if decide (b = 0x05) then Some "&"
  else if decide (b = 0x06) then Some "|"
  else if decide (b = 0x07) then Some "^"
  else if decide (b = 0x08) then Some "<<"
  else if decide (b = 0x09) then Some ">>"
  else None.

Definition int_prefix (varType : Z) : string :=
  if decide (varType < 6) then
    "int" +:+ default EmptyString (["A"; "B"; "C"; "D"; "E"; "F"] !! Z.to_nat varType)
  else if decide (varType = 6) then "intG"
  else if decide (varType = 7) then "intZ"
  else if decide (varType = 0x0a) then "intL"
  else "int_" +:+ Fmt.x02 varType.

Definition str_prefix (varType : Z) : string :=
  if decide (varType = 0x0c) then "strS"
  else if decide (varType = 0x12) then "strM"
  else "str_" +:+ Fmt.x02 varType.

(** The recursive-descent parser.  Every call and every loop round takes
    one unit of fuel. *)
Fixpoint getExprBool (fuel : nat) : M Reader string :=
  match fuel with
  | O => out_of_fuel
  | S f =>
      left ← getExprCond f;
      boolLoop f left
  end
with boolLoop (fuel : nat) (left : string) : M Reader string :=
  match fuel with
  | O => out_of_fuel
  | S f =>
      pb ← attempt Peek;
      match pb with
      | Err _ => mret left
      | Ok b =>
          match bool_op b with
          | Some op =>
              _ ← attempt Next;
              right ← getExprCond f;
              boolLoop f (left +:+ op +:+ right)
          | None => mret left
          end
      end
  end
with getExprCond (fuel : nat) : M Reader string :=
  match fuel with
  | O => out_of_fuel
  | S f =>
      left ← getExprArith f;
      pb ← attempt Peek;
      match pb with
      | Err _ => mret left
      | Ok b =>
          match cond_op b with
          | Some op =>
              _ ← attempt Next;
              right ← getExprArith f;
              mret (left +:+ " " +:+ op +:+ " " +:+ right)
          | None => mret left
          end
      end
  end
with getExprArith (fuel : nat) : M Reader string :=
  match fuel with
  | O => out_of_fuel
  | S f =>
      left ← getExprTerm f;
      arithLoop f left
  end
with arithLoop (fuel : nat) (left : string) : M Reader string :=
  match fuel with
  | O => out_of_fuel
  | S f =>
      pb ← attempt Peek;
      match pb with
      | Err _ => mret left
      | Ok b =>
          match arith_op b with
          | Some op =>
              _ ← attempt Next;
              right ← getExprTerm f;
              arithLoop f (left +:+ " " +:+ op +:+ " " +:+ right)
          | None => mret left
          end
      end
  end
with getExprTerm (fuel : nat) : M Reader string :=
  match fuel with
  | O => out_of_fuel
  | S f =>
      b ← Next;
      if decide (b = 0xff) then
        v ← ReadInt32;
        mret (Fmt.d v)
      else if decide (b = 0xc8) then mret "store"
      else if decide (b = 0x0a) then
        term ← getExprTerm f;
        mret ("-" +:+ term)
      else if decide (b = 0x0b) then
        expr ← getExprBool f;
        _ ← attempt (Expect 0x29 "getExprTerm/paren");
        mret ("(" +:+ expr +:+ ")")
      else if decide (b >= 0x14 /\ b <= 0x1e) then
        if decide (b = 0x14) then
          term ← getExprTerm f;
          mret ("~" +:+ term)
        else
          term ← getExprTerm f;
          mret ("op_" +:+ Fmt.x02 b +:+ "(" +:+ term +:+ ")")
      else if decide (b = 0x24) then readIntVar f
      else
        _ ← Rollback 1;
        fail "unexpected byte in expression"
  end
with readIntVar (fuel : nat) : M Reader string :=
  match fuel with
  | O => out_of_fuel
  | S f =>
      varType ← Next;
      e ← attempt (Expect 0x5b "readIntVar");
      _ ← match e with Err _ => Rollback 1 | Ok _ => mret tt end;
      idx ← getExprBool f;
      _ ← attempt (Expect 0x5d "readIntVar");
      mret (int_prefix varType +:+ "[" +:+ idx +:+ "]")
  end.

Definition GetExpression (fuel : nat) : M Reader string := getExprBool fuel.

(** *** Data reader *)

Definition readStrVar (fuel : nat) : M Reader string :=
  varType ← Next;
  e ← attempt (Expect 0x5b "readStrVar");
  _ ← match e with Err _ => Rollback 1 | Ok _ => mret tt end;
  idx ← GetExpression fuel;
  _ ← attempt (Expect 0x5d "readStrVar");
  mret (str_prefix varType +:+ "[" +:+ idx +:+ "]").

(** The literal-string loop, [sb] holding the bytes written so far. *)
Fixpoint literal_loop (fuel : nat) (sb : string) : M Reader string :=
  match fuel with
  | O => out_of_fuel
  | S f =>
      c ← attempt Next;
      match c with
      | Err _ => mret sb
      | Ok c =>
          if decide (c = 0x22) then mret (sb +:+ dquote)
          else literal_loop f (sb +:+ String (byte_char c) EmptyString)
      end
  end.

Definition readStringData (fuel : nat) : M Reader string :=
  b ← Next;
  if decide (b = 0x22) then literal_loop fuel dquote
  else if decide (b = 0x0a) then readStrVar fuel
  else
    _ ← Rollback 1;
    fail "unexpected byte in string data".

Definition GetData (fuel : nat) : M Reader string :=
  b ← Peek;
  if decide (b = 0x22 \/ b = 0x0a) then readStringData fuel
  else GetExpression fuel.

(** *** Commands, options, result *)

Inductive CommandElem :=
  | ElemString (Value : string)
  | ElemPointer (Offset : Z)
  | ElemStore (Value : string).

Record Command := mkCommand {
  Offset : Z;
  Kepago : list CommandElem;
  Hidden : bool;
  Unhide : bool;
  IsJmp : bool;
  CType : string;
  Opcode_ : string;
  LineNo : Z;
  ResIdx : Z
}.

(** [Command{Offset: offset}] *)
Definition newCommand (offset : Z) : Command :=
  mkCommand offset [] false false false EmptyString EmptyString 0 0.

(** [Command.Text] *)
Definition elem_text (e : CommandElem) : string :=
  match e with
  | ElemString v => v
  | ElemStore v => v
  | ElemPointer o => "@ptr_" +:+ Fmt.d o
  end.

Definition Text (c : Command) : string :=
  foldr (fun e acc => elem_text e +:+ acc) EmptyString (Kepago c).

Record Opcode := mkOpcode {
  op_Type : Z;
  op_Module : Z;
  op_Function : Z;
  op_Overload : Z
}.

(** [Opcode.String]: ["%d:%03d:%05d,%d"] *)
Definition Opcode_String (op : Opcode) : string :=
  Fmt.d (op_Type op) +:+ ":" +:+ Fmt.d0 3 (op_Module op) +:+ ":"
    +:+ Fmt.d0 5 (op_Function op) +:+ "," +:+ Fmt.d (op_Overload op).

(** The fields of [Options] that the disassembler reads. *)
Record Options := mkOptions {
  SeparateStrings : bool;
  ReadDebugSymbols : bool;
  ControlCodes : bool;
  ForcedTarget : EngineMode;
  StartAddress : Z;
  EndAddress : Z
}.

Definition DefaultOptions : Options := mkOptions true false true ModeNone (-1) (-1).

(** [DisassemblyResult]; of the [SeenMap] only [EntryPoints] is ever
    written, and the error text is kept without its offset. *)
Record DisassemblyResult := mkResult {
  Commands : list Command;
  ResStrs : list string;
  Pointers : gset Z;
  Mode : EngineMode;
  Version : Z * Z * Z * Z;
  Header : Bytecode.FileHeader;
  Error : string;
  SeenMap_EntryPoints : list Z
}.

Definition add_command (c : Command) (d : DisassemblyResult) : DisassemblyResult :=
  mkResult (Commands d ++ [c]) (ResStrs d) (Pointers d) (Mode d) (Version d)
           (Header d) (Error d) (SeenMap_EntryPoints d).

Definition add_resstr (s : string) (d : DisassemblyResult) : DisassemblyResult :=
  mkResult (Commands d) (ResStrs d ++ [s]) (Pointers d) (Mode d) (Version d)
           (Header d) (Error d) (SeenMap_EntryPoints d).

Definition add_entrypoint (o : Z) (d : DisassemblyResult) : DisassemblyResult :=
  mkResult (Commands d) (ResStrs d) (Pointers d) (Mode d) (Version d)
           (Header d) (Error d) (SeenMap_EntryPoints d ++ [o]).

Definition set_error (e : string) (d : DisassemblyResult) : DisassemblyResult :=
  mkResult (Commands d) (ResStrs d) (Pointers d) (Mode d) (Version d)
           (Header d) e (SeenMap_EntryPoints d).

(** The disassembler works on the reader and on the result. *)
Definition DState : Type := Reader * DisassemblyResult.

Definition onReader {A} (m : M Reader A) : M DState A := fun s =>
  match m s.1 with
  | Returns (x, r') => Returns (x, (r', s.2))
  | Fails e => Fails e
  | Panics => Panics
  | OutOfFuel => OutOfFuel
  end.

Definition onResult (f : DisassemblyResult -> DisassemblyResult) : M DState unit :=
  modify (fun s : DState => (s.1, f s.2)).

Definition isShiftJISLead (b : Z) : bool :=
  bool_decide ((b >= 0x81 /\ b <= 0x9f) \/ (b >= 0xe0 /\ b <= 0xef)
               \/ (b >= 0xf0 /\ b <= 0xfc)).

(** *** Function calls *)

(** [for i := 0; i < argc; i++ { arg, err := r.GetData(); ... }]: the
    arguments read, and the error that stopped the loop if any. *)
Fixpoint args_loop (fuel : nat) (n : nat) (args : list string)
  : M Reader (list string * option string) :=
  match n with
  | O => mret (args, None)
  | S n' =>
      a ← attempt (GetData fuel);
      match a with
      | Err e => mret (args, Some e)
      | Ok arg => args_loop fuel n' (args ++ [arg])
      end
  end.

(** [readFuncArgs]: [(args, err)]. *)
Definition readFuncArgs (fuel : nat) (argc : Z) : M Reader (list string * option string) :=
  pb ← attempt Peek;
  match pb with
  | Err e => mret ([], Some e)
  | Ok b =>
      _ ← (if decide (b = 0x28) then _ ← attempt Next; mret tt else mret tt);
      '(args, err) ← args_loop fuel (Z.to_nat argc) [];
      match err with
      | Some e => mret (args, Some e)
      | None =>
          pb2 ← attempt Peek;
          _ ← match pb2 with
              | Ok b2 => if decide (b2 = 0x29) then _ ← attempt Next; mret tt
                         else mret tt
              | Err _ => mret tt
              end;
          mret (args, None)
      end
  end.

Definition with_kepago (k : list CommandElem) (c : Command) : Command :=
  mkCommand (Offset c) k (Hidden c) (Unhide c) (IsJmp c) (CType c) (Opcode_ c)
            (LineNo c) (ResIdx c).

Definition with_jmp (j : bool) (c : Command) : Command :=
  mkCommand (Offset c) (Kepago c) (Hidden c) (Unhide c) j (CType c) (Opcode_ c)
            (LineNo c) (ResIdx c).

Definition with_opcode (o : string) (c : Command) : Command :=
  mkCommand (Offset c) (Kepago c) (Hidden c) (Unhide c) (IsJmp c) (CType c) o
            (LineNo c) (ResIdx c).

(** [handleGoto]: it changes the command only. *)
Definition handleGoto (cmd : Command) (op : Opcode) (args : list string) : Command :=
  let name := if decide (op_Function op = 3) then "gosub" else "goto" in
  let cmd1 := with_jmp (bool_decide (op_Function op = 1)) cmd in
  match args with
  | a0 :: _ => with_kepago [ElemString name; ElemString ("(" +:+ a0 +:+ ")")] cmd1
  | [] => with_kepago [ElemString name] cmd1
  end.

(** [handleCondGoto] *)
Definition handleCondGoto (cmd : Command) (op : Opcode) (args : list string) : Command :=
  let name :=
    if decide (op_Function op = 5) then "goto_if"
    else if decide (op_Function op = 8) then "goto_unless"
    else if decide (op_Function op = 9) then "gosub_if"
    else if decide (op_Function op = 16) then "gosub_unless"
    else "goto_if" in
  match args with
  | [] => with_kepago [ElemString name] cmd
  | _ => with_kepago [ElemString (name +:+ "(" +:+ Fmt.join ", " args +:+ ")")] cmd
  end.

Definition readFunction (fuel : nat) (offset : Z) (op : Opcode) (argc : Z)
  : M DState unit :=
  let cmd := newCommand offset in
  let opStr := Opcode_String op in
  '(args, err) ← onReader (readFuncArgs fuel argc);
  match err with
  | Some _ =>
      onResult (add_command
        (with_opcode opStr (with_kepago [ElemString ("op<" +:+ opStr +:+ ">(?)")] cmd)))
  | None =>
      let f := op_Function op in
      let cmd' :=
        if decide (op_Module op = 1 /\ (f = 1 \/ f = 3)) then handleGoto cmd op args
        else if decide (op_Module op = 1 /\ (f = 5 \/ f = 8 \/ f = 9 \/ f = 16)) then
          handleCondGoto cmd op args
        else if decide (op_Module op = 5 /\ f = 1) then
          with_jmp true (with_kepago [ElemString "ret"] cmd)
        else
          let text :=
            match args with
            | [] => "op<" +:+ opStr +:+ ">"
            | _ => "op<" +:+ opStr +:+ ">(" +:+ Fmt.join ", " args +:+ ")"
            end in
          with_opcode opStr (with_kepago [ElemString text] cmd) in
      onResult (add_command cmd')
  end.

(** *** Assignment *)

Definition assign_op (opByte : Z) : string :=
  if decide (opByte = 0x14) then "="
  else if decide (opByte = 0x15) then "+="
  else if decide (opByte = 0x16) then "-="
  else if decide (opByte = 0x17) then "*="
  else if decide (opByte = 0x18) then "/="
  else if decide (opByte = 0x19) then "%="
  else if decide (opByte = 0x1a) then "&="
  else if decide (opByte = 0x1b) then "|="
  else if decide (opByte = 0x1c) then "^="
  else if decide (opByte = 0x1d) then "<<="
  else if decide (opByte = 0x1e) then ">>="
  else "?=" +:+ Fmt.x02 opByte +:+ "=".

Definition readAssignment (fuel : nat) (offset : Z) : M DState unit :=
  dest ← onReader (readIntVar fuel);
  opByte ← onReader Next;
  let op := assign_op opByte in
  _ ← onReader (attempt (Expect 0x5c "readAssignment"));
  e ← onReader (attempt (GetExpression fuel));
  let src := match e with Ok s => s | Err _ => "???" end in
  _ ← onReader (attempt (Expect 0x5c "readAssignment/end"));
  onResult (add_command
    (with_kepago [ElemString (dest +:+ " " +:+ op +:+ " " +:+ src)] (newCommand offset))).

(** *** Textout *)

Definition is_text_end (b : Z) : bool :=
  bool_decide (b = 0x00 \/ b = 0x23 \/ b = 0x24 \/ b = 0x0a \/ b = 0x2c
               \/ b = 0x40 \/ b = 0x21).

Definition put (text : string) (b : Z) : string :=
  text +:+ String (byte_char b) EmptyString.

(** The ruby group: read up to the closing [0x06]. *)
Fixpoint ruby_loop (fuel : nat) (text : string) : M Reader string :=
  match fuel with
  | O => out_of_fuel
  | S f =>
      r ← get;
      if AtEnd r then mret text
      else
        c ← attempt Next;
        match c with
        | Err _ => mret text
        | Ok c =>
            if decide (c = 0x05) then ruby_loop f (text +:+ "}{")
            else if decide (c = 0x06) then mret (text +:+ "}")
            else
              r' ← get;
              if isShiftJISLead c && negb (AtEnd r') then
                c2 ← attempt Next;
                let c2 := match c2 with Ok v => v | Err _ => 0 end in
                ruby_loop f (put (put text c) c2)
              else ruby_loop f (put text c)
        end
  end.

(** [for !r.AtEnd() { ... switch { ... } }].  The [break] after a [0x03]
    is the last statement of its [case]: it leaves the [switch], and the
    loop goes on to its next round. *)
Fixpoint text_loop (fuel : nat) (opts : Options) (text : string) : M Reader string :=
  match fuel with
  | O => out_of_fuel
  | S f =>
      r ← get;
      if AtEnd r then mret text
      else
        pb ← attempt Peek;
        match pb with
        | Err _ => mret text
        | Ok b =>
            if is_text_end b then mret text
            else
              _ ← attempt Next;
              if decide (b = 0x03) then text_loop f opts (text +:+ "\p")
              else if decide (b = 0x04) then
                text' ← ruby_loop f (text +:+ "{ruby ");
                text_loop f opts text'
              else if decide (b = 0x01) then text_loop f opts (text +:+ "\n")
              else if decide (b = 0x02) then text_loop f opts (text +:+ "\w")
              else if isShiftJISLead b then
                b2 ← attempt Next;
                match b2 with
                | Err _ => text_loop f opts (put text b)
                | Ok b2 => text_loop f opts (put (put text b) b2)
                end
              else if decide (b >= 0x20 /\ b < 0x80) then text_loop f opts (put text b)
              else if ControlCodes opts then
                text_loop f opts (text +:+ "\x{" +:+ Fmt.x02 b +:+ "}")
              else text_loop f opts text
        end
  end.

Definition readTextout (fuel : nat) (offset : Z) (opts : Options) : M DState unit :=
  text ← onReader (text_loop fuel opts EmptyString);
  if bool_decide (text = EmptyString) then mret tt
  else
    s ← get;
    let resIdx := len (ResStrs s.2) in
    _ ← onResult (add_resstr text);
    let kepago :=
      if SeparateStrings opts then [ElemString ("<res_" +:+ Fmt.d0 4 resIdx +:+ ">")]
      else [ElemString ("'" +:+ text +:+ "'")] in
    onResult (add_command
      (mkCommand offset kepago false false false "textout" EmptyString 0 resIdx)).

(** *** The dispatch on the first byte *)

Definition readCommand (fuel : nat) (hdr : Bytecode.FileHeader) (opts : Options)
  : M DState unit :=
  s ← get;
  let offset := RelPos s.1 in
  b ← onReader Next;
  if decide (b = 0x00) then
    onResult (add_command
      (mkCommand offset [ElemString "halt"] false false true EmptyString EmptyString 0 0))
  else if decide (b = 0x23) then
    opType ← onReader Next;
    opModule ← onReader Next;
    funcNum ← onReader GetInt16;
    argc ← onReader GetInt16;
    overload ← onReader Next;
    readFunction fuel offset (mkOpcode opType opModule funcNum overload) argc
  else if decide (b = 0x24) then readAssignment fuel offset
  else if decide (b = 0x0a) then
    lineNum ← onReader GetIntForMode;
    onResult (add_command
      (mkCommand offset [ElemString ("#line " +:+ Fmt.d lineNum)]
                 (negb (ReadDebugSymbols opts)) false false "dbline" EmptyString lineNum 0))
  else if decide (b = 0x2c) then
    onResult (add_command
      (mkCommand offset [ElemString ","]
                 (negb (ReadDebugSymbols opts)) false false "debug" EmptyString 0 0))
  else if decide (b = 0x40 \/ b = 0x21) then
    idx ← onReader GetIntForMode;
    kidokuVal ← lift_outcome
      (if decide (idx >= 0 /\ idx < len (Bytecode.KidokuLnums hdr))
       then index (Bytecode.KidokuLnums hdr) idx else mret 0);
    let entryIdx := GoInt.int32 (kidokuVal - 1000000) in
    if decide (entryIdx >= 0) then
      _ ← onResult (add_entrypoint offset);
      onResult (add_command
        (mkCommand offset
           [ElemString ("#entrypoint " +:+ Fmt.d0 3 entryIdx +:+ " // Z" +:+ Fmt.d0 2 entryIdx)]
           false true false "entrypoint" EmptyString 0 0))
    else
      onResult (add_command
        (mkCommand offset [ElemString ("{- kidoku " +:+ Fmt.d0 3 idx +:+ " -}")]
           (negb (ReadDebugSymbols opts)) false false "kidoku" EmptyString 0 0))
  else
    _ ← onReader (Rollback 1);
    readTextout fuel offset opts.

(** *** Disassemble *)

(** [for !reader.AtEnd() { err := readCommand(...); if err != nil { ...; break } }] *)
Fixpoint main_loop (fuel : nat) (hdr : Bytecode.FileHeader) (opts : Options) (s : DState)
  : outcome DState :=
  if AtEnd s.1 then Returns s
  else
    match fuel with
    | O => OutOfFuel
    | S f =>
        match readCommand f hdr opts s with
        | Returns (Ok _, s') => main_loop f hdr opts s'
        | Returns (Err e, s') =>
            Returns (s'.1, set_error ("disassembly error: " +:+ e) s'.2)
        | Fails e => Fails e
        | Panics => Panics
        | OutOfFuel => OutOfFuel
        end
    end.

Definition Disassemble (fuel : nat) (arr : Binarray.Buffer) (opts : Options)
  : outcome DisassemblyResult :=
  hdr ← match Bytecode.ReadFullHeader arr true with
        | Fails e => Fails ("failed to read header: " +:+ e)
        | o => o
        end;
  let mode :=
    if decide (ForcedTarget opts = ModeNone) then
      if decide (Bytecode.HeaderVersion hdr = 1) then ModeAvg2000 else ModeRealLive
    else ForcedTarget opts in
  let version := if decide (mode = ModeAvg2000) then (1, 0, 0, 0) else (1, 2, 7, 0) in
  let startAddr :=
    if decide (StartAddress opts > Bytecode.DataOffset hdr
               /\ StartAddress opts < Binarray.Len arr)
    then StartAddress opts else Bytecode.DataOffset hdr in
  let endAddr :=
    if decide (EndAddress opts > 0 /\ EndAddress opts < Binarray.Len arr) then
      if decide (EndAddress opts > startAddr) then EndAddress opts else Binarray.Len arr
    else Binarray.Len arr in
  let reader := NewReader arr startAddr endAddr mode in
  let result := mkResult [] [] ∅ mode version hdr EmptyString [] in
  s ← main_loop fuel hdr opts (reader, result);
  mret s.2.

End Disasm.

(** * Inputs and auxiliary notions used in the statements *)

Module Inputs.
Import Disasm.

(** Operations on a reader, as a caller may sequence them. *)
Inductive ReaderOp :=
  | OpNext
  | OpSkip (n : Z)
  | OpRollback (n : Z).

Definition state_of {A} (o : outcome (res A * Reader)) : outcome Reader :=
  x ← o; mret x.2.

Definition run_op (op : ReaderOp) (r : Reader) : outcome Reader :=
  match op with
  | OpNext => state_of (Next r)
  | OpSkip n => state_of (Skip n r)
  | OpRollback n => state_of (Rollback n r)
  end.

Fixpoint run_ops (ops : list ReaderOp) (r : Reader) : outcome Reader :=
  match ops with
  | [] => Returns r
  | op :: ops' => r' ← run_op op r; run_ops ops' r'
  end.

(** Every [Skip] of the sequence moves forward and stays within [int]. *)
Fixpoint skips_forward (ops : list ReaderOp) (r : Reader) : Prop :=
  match ops with
  | [] => True
  | op :: ops' =>
      match op with
      | OpSkip n => 0 <= n /\ pos r + n <= GoInt.maxInt
      | _ => True
      end
      /\ match run_op op r with
         | Returns r' => skips_forward ops' r'
         | _ => True
         end
  end.

(** The fields of a reader are Go [int]s. *)
Definition reader_ints (r : Reader) : Prop :=
  GoInt.is_int (pos r) /\ GoInt.is_int (origin r) /\ GoInt.is_int (limit r).

(** What one operation keeps: the fields stay [int]s, origin and limit do
    not move, the position is not before the origin. *)
Definition stays_after_origin (r r' : Reader) : Prop :=
  reader_ints r' /\ origin r' = origin r /\ limit r' = limit r /\ origin r' <= pos r'.

(** A reader over a whole byte slice, as the tests build it. *)
Definition reader_on (bytes : list Z) (m : EngineMode) : Reader :=
  NewReader bytes 0 (len bytes) m.

Definition empty_result : DisassemblyResult :=
  mkResult [] [] ∅ ModeRealLive (1, 2, 7, 0) Bytecode.EmptyHeader EmptyString [].

(** A text run: [A], line break, wait, page break, [B], then the
    terminating NUL. *)
Definition text_run : list Z := [0x41; 0x01; 0x02; 0x03; 0x42; 0x00].

(** A RealLive file.  Header: magic [KPRL], compiler 10002, one kidoku
    line (1000005, that is entry point 5) in a table at [0x1d0], no
    dramatis personae, code at [0x1d4].  Code: [goto(1000)] -- opcode
    [0:001:00001,0] with one argument, the immediate 1000 -- followed by
    the kidoku marker [@ 0]. *)
Definition goto_stream : list Z :=
  [0x23; 0; 1; 1; 0; 1; 0; 0; 0xFF; 0xE8; 3; 0; 0].

Definition kprl_header : list Z :=
  bytes_of_string "KPRL" ++ LittleEndian.bytes32 10002
    ++ LittleEndian.bytes32 0x1d0 ++ LittleEndian.bytes32 1
    ++ replicate 4 0
    ++ LittleEndian.bytes32 0x1d4 ++ LittleEndian.bytes32 0
    ++ replicate 4 0
    ++ LittleEndian.bytes32 0x1d4 ++ LittleEndian.bytes32 16
    ++ LittleEndian.bytes32 0
    ++ replicate 8 0
    ++ replicate 400 0
    ++ replicate 12 0
    ++ LittleEndian.bytes32 1000005.

Definition goto_file : list Z := kprl_header ++ goto_stream ++ [0x40; 0; 0].

(** Two RLdev metadata blocks for the identifier [ab] (so [id_len = 2]),
    compiler version 1.30, target 1.2.7.0, Western text transform.  Both
    hold all twenty bytes of the layout; they differ in the stored
    [total_len] only: 19 in the first, 20 in the second. *)
Definition meta_fields : list Z :=
  LittleEndian.bytes32 2 ++ bytes_of_string "ab" ++ [0]
    ++ LittleEndian.bytes32 130 ++ [1; 2; 7; 0] ++ [2].

Definition meta_block_19 : list Z := LittleEndian.bytes32 19 ++ meta_fields.
Definition meta_block_20 : list Z := LittleEndian.bytes32 20 ++ meta_fields.

(** An archive of 80 008 bytes.  Slot 0 is [(offset 8, length 80000)]:
    its data starts inside the index, on the entry of slot 1, and ends
    with the buffer.  Slot 1 is [(offset "RDRL", length 0)], an empty slot
    whose offset bytes spell a bytecode magic.  Everything else is zero. *)
Definition index_head : list Z :=
  LittleEndian.bytes32 8 ++ LittleEndian.bytes32 80000 ++ bytes_of_string "RDRL".

Definition inside_index_archive : list Z :=
  index_head ++ replicate (Z.to_nat 79996) 0.

(** A 48-byte buffer that starts with [b8 01 00 00] and compiler version
    10002; the rest of the header is zero. *)
Definition b801_file : list Z :=
  [0xb8; 0x01; 0x00; 0x00] ++ LittleEndian.bytes32 10002 ++ replicate 40 0.

(** Whether a call came back with a value. *)
Definition returned {A} (o : outcome A) : bool :=
  match o with Returns _ => true | _ => false end.

(** [n] rounds of the encoder's outer loop, one after the other. *)
Fixpoint compress_rounds (n : nat) (inp : list Z) (st : Siglus.cstate)
  : outcome Siglus.cstate :=
  match n with
  | O => Returns st
  | S n' => st' ← Siglus.compress_round inp st; compress_rounds n' inp st'
  end.

(** 4 099 bytes: [1 2 3], then 4 093 zeros, then [1 2 3] again.  The
    only earlier occurrence of the last three bytes lies exactly 4 096
    bytes back. *)
Definition far_match_input : list Z :=
  [1; 2; 3] ++ replicate (Z.to_nat 4093) 0 ++ [1; 2; 3].

(** Encoding [far_match_input] round by round until the input is consumed
    (31 rounds), framing the stream as the epilogue of [Compress] does, and
    decoding the frame: the input position reached, the length of the frame,
    and the decoded bytes from position 4096 on. *)
Definition far_match_trace : outcome (Z * Z * list Z) :=
  st ← compress_rounds 31 far_match_input (Siglus.compress_init far_match_input);
  frame ← Siglus.compress_finish far_match_input st;
  decoded ← Siglus.Decompress frame;
  mret (Siglus.c_inPos st, len frame, drop 4096 decoded).

(** Calls that leave the pointer set of the result as it was. *)
Definition keeps_pointers {A} (m : M DState A) : Prop :=
  forall s x s', m s = Returns (x, s') -> Pointers s'.2 = Pointers s.2.

End Inputs.

(** * Properties *)

(** ** Fixed-width integers *)

Lemma int64_id x : GoInt.is_int x -> GoInt.int64 x = x.
Proof.
  unfold GoInt.is_int, GoInt.minInt, GoInt.maxInt, GoInt.int64, GoInt.signed.
  intros H. rewrite Z.mod_small; lia.
Qed.

Lemma int64_range x : GoInt.is_int (GoInt.int64 x).
Proof.
  unfold GoInt.is_int, GoInt.minInt, GoInt.maxInt, GoInt.int64, GoInt.signed.
  pose proof (Z.mod_pos_bound (x + 2 ^ (64 - 1)) (2 ^ 64) ltac:(lia)). lia.
Qed.

(** The low 16 bits of a 64-bit product are those of the exact product. *)
Lemma uint16_int64 x : GoInt.uint16 (GoInt.int64 x) = x mod 2 ^ 16.
Proof.
  unfold GoInt.uint16, GoInt.unsigned, GoInt.int64, GoInt.signed.
  change (2 ^ (64 - 1)) with (2 ^ 63).
  pose proof (Z.div_mod (x + 2 ^ 63) (2 ^ 64) ltac:(lia)) as E.
  set (q := (x + 2 ^ 63) / 2 ^ 64) in *.
  set (a := (x + 2 ^ 63) mod 2 ^ 64) in *.
  replace (a - 2 ^ 63) with (x + (- q * 2 ^ 48) * 2 ^ 16) by lia.
  apply Z_mod_plus_full.
Qed.

(** ** Siglus string obfuscation *)

Section SiglusStrings.
Import Siglus.

Lemma xor_units_involutive k u16 : xor_units k (xor_units k u16) = u16.
Proof.
  unfold xor_units. induction u16 as [|u us IH].
  - reflexivity.
  - rewrite !fmap_cons, IH, Z.lxor_assoc, Z.lxor_nilpotent, Z.lxor_0_r. reflexivity.
Qed.

Lemma key_range i : 0 <= key i < 2 ^ 16.
Proof. unfold key. rewrite uint16_int64. apply Z.mod_pos_bound. lia. Qed.

(** A code unit stays a code unit under the key. *)
Lemma xor_unit_range i u : 0 <= u < 2 ^ 16 -> 0 <= Z.lxor u (key i) < 2 ^ 16.
Proof.
  intros Hu. pose proof (key_range i) as Hk. split.
  - apply Z.lxor_nonneg. lia.
  - destruct (Z.eq_dec (Z.lxor u (key i)) 0) as [->|Hnz]; [lia|].
    apply Z.log2_lt_pow2.
    + assert (0 <= Z.lxor u (key i)) by (apply Z.lxor_nonneg; lia). lia.
    + eapply Z.le_lt_trans; [apply Z.log2_lxor; lia|].
      apply Z.max_lub_lt.
      * destruct (Z.eq_dec u 0) as [->|]; [reflexivity|].
        apply Z.log2_lt_pow2; lia.
      * destruct (Z.eq_dec (key i) 0) as [->|]; [reflexivity|].
        apply Z.log2_lt_pow2; lia.
Qed.

(** C10.  The per-index obfuscation is its own inverse: the key of
    index [i] is the exact product [i * 0x7087] modulo [2^16], and the
    decryption of [DumpSS] undoes the encryption of [encryptString] at the
    same index, for every index and every sequence of code units. *)
Theorem siglus_string_xor_self_inverse :
  forall (i : Z) (u16 : list Z),
    key i = (i * 0x7087) mod 2 ^ 16
    /\ decrypt_units i (encrypt_units i u16) = u16
    /\ encrypt_units i (decrypt_units i u16) = u16.
Proof.
  intros i u16. split; [|split].
  - unfold key. apply uint16_int64.
  - apply xor_units_involutive.
  - apply xor_units_involutive.
Qed.

End SiglusStrings.

(** ** The reader's position *)

Section ReaderPosition.
Import Disasm Inputs.

Local Ltac ints :=
  unfold reader_ints, GoInt.is_int, GoInt.minInt, GoInt.maxInt in *; simpl in *.

Lemma Next_keeps_origin r r' :
  reader_ints r -> origin r <= pos r ->
  run_op OpNext r = Returns r' -> stays_after_origin r r'.
Proof.
  intros Hi Hle. unfold run_op, state_of, Next, stays_after_origin.
  destruct (decide (pos r >= limit r)); simpl.
  - intros [= <-]. auto.
  - destruct (index (data r) (pos r)); simpl; try discriminate.
    intros [= <-]. simpl.
    rewrite int64_id by (ints; lia). ints. lia.
Qed.

Lemma Rollback_keeps_origin n r r' :
  reader_ints r ->
  run_op (OpRollback n) r = Returns r' -> stays_after_origin r r'.
Proof.
  intros Hi. unfold run_op, state_of, Rollback, stays_after_origin. simpl.
  intros [= <-]. simpl.
  pose proof (int64_range (pos r - n)).
  destruct (decide (GoInt.int64 (pos r - n) < origin r)); ints; lia.
Qed.

Lemma Skip_forward_keeps_origin n r r' :
  reader_ints r -> origin r <= pos r ->
  0 <= n -> pos r + n <= GoInt.maxInt ->
  run_op (OpSkip n) r = Returns r' -> stays_after_origin r r'.
Proof.
  intros Hi Hle Hn Hmax. unfold run_op, state_of, Skip, stays_after_origin. simpl.
  intros [= <-]. simpl.
  rewrite int64_id by (ints; lia). ints. lia.
Qed.

Lemma run_ops_keeps_origin ops :
  forall r r',
    reader_ints r -> origin r <= pos r ->
    skips_forward ops r ->
    run_ops ops r = Returns r' ->
    origin r' = origin r /\ origin r' <= pos r'.
Proof.
  induction ops as [|op ops IH]; intros r r' Hi Hle Hs Hrun; simpl in *.
  - injection Hrun as <-. split; [reflexivity | assumption].
  - destruct Hs as [Hop Hs].
    destruct (run_op op r) as [r1| | |] eqn:E; simpl in Hrun; try discriminate.
    assert (stays_after_origin r r1) as (Hi1 & Ho1 & _ & Hle1).
    { destruct op as [|n|n].
      - eapply Next_keeps_origin; eassumption.
      - destruct Hop. eapply Skip_forward_keeps_origin; eassumption.
      - eapply Rollback_keeps_origin; eassumption. }
    destruct (IH r1 r' Hi1 Hle1 Hs Hrun) as [Ho' Hle'].
    split; [congruence | assumption].
Qed.

(** C9, as amended.  Starting from [NewReader], a sequence of [Next],
    [Rollback] and [Skip] operations keeps the position at or after the
    origin, provided every [Skip] is given a non-negative count that does
    not push the position out of the [int] range.  [Rollback] needs no
    such proviso: it clamps to the origin. *)
Theorem reader_position_never_before_origin :
  forall (bytes : list Z) (o l : Z) (m : EngineMode) (ops : list ReaderOp) (r' : Reader),
    GoInt.is_int o -> GoInt.is_int l ->
    skips_forward ops (NewReader bytes o l m) ->
    run_ops ops (NewReader bytes o l m) = Returns r' ->
    origin r' = o /\ origin r' <= pos r'.
Proof.
  intros bytes o l m ops r' Ho Hl Hs Hrun.
  apply (run_ops_keeps_origin ops (NewReader bytes o l m) r'); try assumption.
  - repeat split; simpl; apply Ho || apply Hl.
  - simpl. lia.
Qed.

Lemma reader_position_never_before_origin_witness :
  exists r',
    run_ops [OpNext; OpSkip 2; OpRollback 100; OpNext]
            (NewReader [1; 2; 3; 4] 1 4 ModeRealLive) = Returns r'
    /\ origin r' = 1 /\ origin r' <= pos r'.
Proof.
  eexists. split; [reflexivity|].
  apply (reader_position_never_before_origin
           [1; 2; 3; 4] 1 4 ModeRealLive [OpNext; OpSkip 2; OpRollback 100; OpNext]).
  - unfold GoInt.is_int, GoInt.minInt, GoInt.maxInt. lia.
  - unfold GoInt.is_int, GoInt.minInt, GoInt.maxInt. lia.
  - vm_compute. repeat split; discriminate.
  - reflexivity.
Defined.

(** C9, as stated, fails: [Skip] adds its argument unchecked, so a
    negative count moves a fresh reader before its origin. *)
Lemma reader_skip_negative_leaves_origin :
  exists r',
    run_ops [OpSkip (-1)] (NewReader [1; 2; 3; 4] 0 4 ModeRealLive) = Returns r'
    /\ pos r' = -1 /\ origin r' = 0 /\ pos r' < origin r'.
Proof. eexists. split; [reflexivity|]. vm_compute. repeat split; reflexivity. Qed.

End ReaderPosition.

(** ** The expression grammar on the two documented inputs *)

Section ExpressionExamples.
Import Disasm Inputs.

(** C8.  With enough fuel -- four nested calls for the first input, five
    for the second -- [GetExpression] returns ["42"] on
    [[0xFF, 0x2A, 0, 0, 0]] and ["2 + 3"] on
    [[0xFF, 2, 0, 0, 0, 0x00, 0xFF, 3, 0, 0, 0]], having consumed the whole
    input, in every engine mode. *)
Theorem GetExpression_examples :
  forall (k : nat) (m : EngineMode),
    GetExpression (4 + k) (reader_on [0xFF; 0x2A; 0x00; 0x00; 0x00] m)
      = Returns (Ok "42", set_pos (reader_on [0xFF; 0x2A; 0x00; 0x00; 0x00] m) 5)
    /\ GetExpression (5 + k) (reader_on [0xFF; 2; 0; 0; 0; 0x00; 0xFF; 3; 0; 0; 0] m)
      = Returns (Ok "2 + 3",
                 set_pos (reader_on [0xFF; 2; 0; 0; 0; 0x00; 0xFF; 3; 0; 0; 0] m) 11).
Proof. intros k m. split; vm_compute; reflexivity. Qed.

End ExpressionExamples.

(** ** Textout and the pointer set *)

Section Disassembly.
Import Disasm Inputs.

(** C2, on the code.  The run [A 01 02 03 B 00] is read up to the NUL: the
    byte [B] that follows the page break is appended to the same text, which
    is ["A\n\w\pB"] and not ["A\n\w\p"]. *)
Theorem textout_continues_after_page_break :
  forall k : nat,
    exists s',
      readTextout (7 + k) 0 DefaultOptions (reader_on text_run ModeRealLive, empty_result)
        = Returns (Ok tt, s')
      /\ pos s'.1 = 5
      /\ ResStrs s'.2 = ["A\n\w\pB"].
Proof. intros k. eexists. split; [vm_compute; reflexivity|]. split; reflexivity. Qed.

(** *** The pointer set is never written *)

Lemma keeps_ret {A} (a : A) : keeps_pointers (mret a).
Proof. intros s x s' [= <- <-]. reflexivity. Qed.

Lemma keeps_bind {A B} (m : M DState A) (k : A -> M DState B) :
  keeps_pointers m -> (forall a, keeps_pointers (k a)) -> keeps_pointers (m ≫= k).
Proof.
  intros Hm Hk s x s'. unfold mbind, M_bind.
  destruct (m s) as [[[a|e] s1]| | |] eqn:E; try discriminate.
  - intros Hka. rewrite (Hk a s1 x s' Hka). exact (Hm s _ s1 E).
  - intros [= <- <-]. exact (Hm s _ s1 E).
Qed.

Lemma keeps_attempt {A} (m : M DState A) :
  keeps_pointers m -> keeps_pointers (attempt m).
Proof.
  intros Hm s x s'. unfold attempt.
  destruct (m s) as [[y s1]| | |] eqn:E; try discriminate.
  intros [= <- <-]. exact (Hm s _ s1 E).
Qed.

Lemma keeps_onReader {A} (m : M Reader A) : keeps_pointers (onReader m).
Proof.
  intros s x s'. unfold onReader.
  destruct (m s.1) as [[y r1]| | |]; try discriminate.
  intros [= <- <-]. reflexivity.
Qed.

Lemma keeps_onResult (f : DisassemblyResult -> DisassemblyResult) :
  (forall d, Pointers (f d) = Pointers d) -> keeps_pointers (onResult f).
Proof. intros Hf s x s' [= <- <-]. simpl. apply Hf. Qed.

Lemma keeps_get : keeps_pointers (get (S := DState)).
Proof. intros s x s' [= <- <-]. reflexivity. Qed.

Lemma keeps_lift {A} (o : outcome A) : keeps_pointers (lift_outcome (S := DState) o).
Proof.
  intros s x s'. unfold lift_outcome. destruct o; simpl; try discriminate.
  intros [= <- <-]. reflexivity.
Qed.

Local Ltac keeps :=
  repeat first
    [ apply keeps_ret | apply keeps_onReader | apply keeps_get | apply keeps_lift
    | apply keeps_attempt
    | apply keeps_onResult; intros ?; reflexivity
    | apply keeps_bind; [|intros ?]
    | match goal with
      | |- keeps_pointers (if ?c then _ else _) => destruct c
      | |- keeps_pointers (match ?x with _ => _ end) => destruct x
      | |- keeps_pointers (let '(_, _) := ?x in _) => destruct x
      end ].

Lemma keeps_readFunction fuel offset op argc :
  keeps_pointers (readFunction fuel offset op argc).
Proof. unfold readFunction. keeps. Qed.

Lemma keeps_readAssignment fuel offset : keeps_pointers (readAssignment fuel offset).
Proof. unfold readAssignment. keeps. Qed.

Lemma keeps_readTextout fuel offset opts : keeps_pointers (readTextout fuel offset opts).
Proof. unfold readTextout. keeps. Qed.

Lemma keeps_readCommand fuel hdr opts : keeps_pointers (readCommand fuel hdr opts).
Proof.
  unfold readCommand.
  keeps; auto using keeps_readFunction, keeps_readAssignment, keeps_readTextout.
Qed.

Lemma main_loop_pointers fuel hdr opts :
  forall s s', main_loop fuel hdr opts s = Returns s' -> Pointers s'.2 = Pointers s.2.
Proof.
  induction fuel as [|f IH]; intros s s'; simpl.
  - destruct (AtEnd s.1); [intros [= <-]; reflexivity | discriminate].
  - destruct (AtEnd s.1); [intros [= <-]; reflexivity |].
    destruct (readCommand f hdr opts s) as [[[u|e] s1]| | |] eqn:E; try discriminate.
    + intros H. rewrite (IH _ _ H). exact (keeps_readCommand f hdr opts s _ s1 E).
    + intros [= <-]. simpl. exact (keeps_readCommand f hdr opts s _ s1 E).
Qed.

(** Whatever the input, the result of [Disassemble] has an empty pointer
    set: no path of the disassembler writes to it. *)
Lemma Disassemble_pointers_empty fuel arr opts d :
  Disassemble fuel arr opts = Returns d -> Pointers d = ∅.
Proof.
  unfold Disassemble.
  destruct (Bytecode.ReadFullHeader arr true) as [hdr| | |]; simpl; try discriminate.
  match goal with
  | |- context [main_loop fuel hdr opts ?s0] =>
      destruct (main_loop fuel hdr opts s0) as [s'| | |] eqn:E
  end; simpl; try discriminate.
  intros [= <-]. apply main_loop_pointers in E. exact E.
Qed.

(** C3, on the code.  Disassembling a file whose code is [goto(1000)]
    followed by an entry-point marker yields both commands, records the
    entry point in the seen map, and leaves the pointer set empty. *)
Theorem goto_and_entrypoint_leave_pointers_empty :
  forall k : nat,
    exists d,
      Disassemble (12 + k) goto_file DefaultOptions = Returns d
      /\ Text <$> Commands d = ["goto(1000)"; "#entrypoint 005 // Z05"]
      /\ IsJmp <$> Commands d = [true; false]
      /\ SeenMap_EntryPoints d = [13]
      /\ Error d = EmptyString
      /\ Pointers d = ∅.
Proof.
  intros k. eexists. split; [vm_compute; reflexivity|].
  repeat split; reflexivity.
Qed.

End Disassembly.

(** ** The file header and the [b8 01 00 00] magic *)

Section HeaderMagic.
Import Binarray Bytecode Inputs.

Lemma bind_Returns {A B} (a : A) (f : A -> outcome B) : (Returns a ≫= f) = f a.
Proof. reflexivity. Qed.

Lemma b801_not_rd :
  bool_decide (magicB801 ∈ [magicRDRL; magicRD2K; magicRDRM]) = false.
Proof. vm_compute. reflexivity. Qed.

Lemma b801_checked :
  bool_decide (magicB801 ∈ [magicKPRL; magicKP2K; magicKPRM;
                            magicD001; magicCC01; magicB801]) = true.
Proof. vm_compute. reflexivity. Qed.

Lemma b801_not_v1 :
  bool_decide (magicB801 ∈ [magicKP2K; magicRD2K; magicCC01]) = false.
Proof. vm_compute. reflexivity. Qed.

Lemma b801_not_v2 :
  bool_decide (magicB801 ∈ [magicKPRL; magicRDRL; magicKPRM; magicRDRM; magicD001])
  = false.
Proof. vm_compute. reflexivity. Qed.

Lemma b801_no_rd_prefix : bool_decide (String.substring 0 2 magicB801 = "RD") = false.
Proof. vm_compute. reflexivity. Qed.

(** C5, on the code.  A buffer of at least eight bytes whose first four
    bytes are [b8 01 00 00] and whose integer at offset 4 is one of the
    three supported compiler versions is accepted by [IsBytecode]; yet
    [ReadFileHeader] returns the error for an unsupported header format,
    because the magic is in neither [case] of its [switch]. *)
Theorem b801_accepted_then_rejected :
  forall (arr : Buffer) (archived : bool) (ver : Z),
    8 <= Len arr ->
    Read arr 0 4 = Returns magicB801 ->
    GetInt arr 4 = Returns ver ->
    ver = 10002 \/ ver = 110002 \/ ver = 1110002 ->
    IsBytecode arr 0 = Returns true
    /\ ReadFileHeader arr archived = Fails "unsupported header format".
Proof.
  intros arr archived ver Hlen Hmagic Hver Hsup.
  assert (IsBytecode arr 0 = Returns true) as Hbc.
  { unfold IsBytecode. rewrite decide_False by lia.
    rewrite Hmagic, bind_Returns, b801_not_rd, b801_checked.
    change (0 + 4) with 4. rewrite Hver, bind_Returns.
    rewrite bool_decide_eq_true_2 by assumption. reflexivity. }
  split; [exact Hbc|].
  unfold ReadFileHeader. rewrite Hbc, bind_Returns. cbn [negb].
  rewrite Hmagic, bind_Returns, b801_no_rd_prefix, Hver, bind_Returns.
  rewrite b801_not_v1, b801_not_v2. reflexivity.
Qed.

Lemma b801_accepted_then_rejected_witness :
  (8 <= Len b801_file
   /\ Read b801_file 0 4 = Returns magicB801
   /\ GetInt b801_file 4 = Returns 10002)
  /\ IsBytecode b801_file 0 = Returns true
  /\ ReadFileHeader b801_file true = Fails "unsupported header format".
Proof.
  assert (8 <= Len b801_file) as Hlen by (vm_compute; discriminate).
  split.
  - split; [exact Hlen|]. split; reflexivity.
  - apply (b801_accepted_then_rejected b801_file true 10002 Hlen eq_refl eq_refl).
    left. reflexivity.
Defined.

End HeaderMagic.

(** ** In-bounds reads do not panic *)

Section InBounds.
Import Binarray.

Lemma GetInt_in_bounds (arr : Buffer) i :
  0 <= i -> i + 4 <= Len arr -> exists v, GetInt arr i = Returns v.
Proof.
  unfold Len, len, GetInt, slice_from. intros H0 H4.
  rewrite decide_True by lia. rewrite bind_Returns.
  assert (4 <= length (drop (Z.to_nat i) arr))%nat as Hd
    by (rewrite length_drop; lia).
  destruct (drop (Z.to_nat i) arr) as [|b0 [|b1 [|b2 [|b3 l]]]];
    simpl in Hd; try lia.
  eexists. reflexivity.
Qed.

Lemma GetU8_in_bounds (arr : Buffer) i :
  0 <= i < Len arr -> exists v, GetU8 arr i = Returns v.
Proof.
  unfold Len, len, GetU8, index. intros H.
  rewrite decide_True by lia.
  destruct (lookup_lt_is_Some_2 arr (Z.to_nat i) ltac:(lia)) as [v ->].
  eexists. reflexivity.
Qed.

Lemma ReadSz_in_bounds (arr : Buffer) i n :
  0 <= i -> 0 <= n -> i + n <= Len arr -> exists s, ReadSz arr i n = Returns s.
Proof.
  unfold Len, len, ReadSz, slice. intros H0 Hn Hle.
  rewrite decide_True by lia. eexists. reflexivity.
Qed.

End InBounds.

(** ** The metadata block *)

Section MetadataBlock.
Import Binarray Metadata Inputs.

(** C6, as amended.  With the two length fields read as signed 32-bit
    integers, [Read] takes a block for valid exactly when
    [total_len >= id_len + 18], that is [(id_len + 1) + 17] with the NUL
    of the identifier counted: below that it returns the empty metadata;
    from there on, when the [id_len + 18] bytes of the layout lie inside
    the buffer, it returns the name, version, target version and text
    transform read from the block. *)
Theorem Metadata_Read_threshold :
  forall (arr : Buffer) (idx total_len id_len : Z),
    0 <= idx -> idx + 8 <= Len arr ->
    GetInt arr idx = Returns total_len ->
    GetInt arr (idx + 4) = Returns id_len ->
    (total_len < id_len + 18 -> Read arr idx = Returns Empty)
    /\ (id_len + 18 <= total_len -> -1 <= id_len -> idx + (id_len + 18) <= Len arr ->
        let idx2 := idx + 8 + (id_len + 1) in
        exists name ver t0 t1 t2 t3 tt,
          ReadSz arr (idx + 8) (id_len + 1) = Returns name
          /\ GetInt arr idx2 = Returns ver
          /\ GetU8 arr (idx2 + 4) = Returns t0
          /\ GetU8 arr (idx2 + 5) = Returns t1
          /\ GetU8 arr (idx2 + 6) = Returns t2
          /\ GetU8 arr (idx2 + 7) = Returns t3
          /\ GetU8 arr (idx2 + 8) = Returns tt
          /\ Read arr idx
             = Returns (mkMetadata name ver (t0, t1, t2, t3) (transform_of_byte tt))).
Proof.
  intros arr idx total_len id_len H0 H8 Ht Hi. unfold Read.
  rewrite decide_False by lia. rewrite Ht, bind_Returns, Hi, bind_Returns. split.
  - intros Hlt. rewrite decide_True by lia. reflexivity.
  - intros Hge Hid Hin. cbv zeta. set (idx2 := idx + 8 + (id_len + 1)).
    rewrite decide_False by lia.
    destruct (ReadSz_in_bounds arr (idx + 8) (id_len + 1)) as [name Hn]; try lia.
    destruct (GetInt_in_bounds arr idx2) as [ver Hv]; try (subst idx2; lia).
    destruct (GetU8_in_bounds arr (idx2 + 4)) as [t0 E0]; try (subst idx2; lia).
    destruct (GetU8_in_bounds arr (idx2 + 5)) as [t1 E1]; try (subst idx2; lia).
    destruct (GetU8_in_bounds arr (idx2 + 6)) as [t2 E2]; try (subst idx2; lia).
    destruct (GetU8_in_bounds arr (idx2 + 7)) as [t3 E3]; try (subst idx2; lia).
    destruct (GetU8_in_bounds arr (idx2 + 8)) as [tt Et]; try (subst idx2; lia).
    exists name, ver, t0, t1, t2, t3, tt.
    rewrite Hn, Hv, E0, E1, E2, E3, Et, !bind_Returns.
    repeat split; reflexivity.
Qed.

Lemma Metadata_Read_threshold_witness :
  (0 <= 0 /\ 0 + 8 <= Len meta_block_20
   /\ GetInt meta_block_20 0 = Returns 20
   /\ GetInt meta_block_20 (0 + 4) = Returns 2)
  /\ (2 + 18 <= 20 /\ -1 <= 2 /\ 0 + (2 + 18) <= Len meta_block_20)
  /\ Read meta_block_20 0
     = Returns (mkMetadata "ab" 130 (1, 2, 7, 0) TransformWestern).
Proof.
  assert (0 + 8 <= Len meta_block_20) as H8 by (vm_compute; discriminate).
  assert (0 + (2 + 18) <= Len meta_block_20) as H20 by (vm_compute; discriminate).
  split; [|split].
  - repeat split; try lia; try reflexivity; exact H8.
  - repeat split; try lia; exact H20.
  - destruct (Metadata_Read_threshold meta_block_20 0 20 2
                ltac:(lia) H8 eq_refl eq_refl) as [_ Hvalid].
    destruct (Hvalid ltac:(lia) ltac:(lia) H20)
      as (name & ver & t0 & t1 & t2 & t3 & tt & Hn & Hv & E0 & E1 & E2 & E3 & Et & HR).
    rewrite HR.
    injection Hn as <-. injection Hv as <-.
    injection E0 as <-. injection E1 as <-. injection E2 as <-. injection E3 as <-.
    injection Et as <-. reflexivity.
Defined.

(** C6, as stated, fails: a complete block whose stored [total_len] is
    [id_len + 17] is treated as absent. *)
Lemma metadata_block_id_len_plus_17_is_absent :
  GetInt meta_block_19 0 = Returns 19
  /\ GetInt meta_block_19 4 = Returns 2
  /\ 19 = 2 + 17
  /\ Read meta_block_19 0 = Returns Empty
  /\ Empty <> mkMetadata "ab" 130 (1, 2, 7, 0) TransformWestern.
Proof. repeat split; try reflexivity. discriminate. Qed.

End MetadataBlock.

(** ** The archive validator *)

Section ArchiveValidator.
Import Binarray Kprl Inputs.

(** Past a prefix, a zero-filled buffer reads as zero. *)
Lemma GetInt_zeros (pre : list Z) (n : nat) (i : Z) :
  len pre <= i -> i + 4 <= len pre + Z.of_nat n ->
  GetInt (pre ++ replicate n 0) i = Returns 0.
Proof.
  unfold len, GetInt, slice_from. intros Hpre Hin.
  rewrite decide_True by (rewrite length_app, length_replicate; lia).
  rewrite bind_Returns, drop_app_ge by lia.
  rewrite drop_replicate.
  remember (n - (Z.to_nat i - length pre))%nat as m eqn:Em.
  assert (4 <= m)%nat as Hm by lia.
  destruct m as [|[|[|[|m]]]]; try lia.
  reflexivity.
Qed.

(** Slots that are all empty leave the count as it is. *)
Lemma seen_loop_empty_slots (arr : Buffer) :
  Len arr > 23 ->
  forall (n : nat) (i count : Z),
    (forall j, i <= j < i + Z.of_nat n ->
               exists o, GetInt arr (j * 8) = Returns o
                         /\ GetInt arr (j * 8 + 4) = Returns 0) ->
    seen_loop n arr i count = Returns count.
Proof.
  intros Hlen n. induction n as [|n IH]; intros i count Hslots.
  - reflexivity.
  - destruct (Hslots i ltac:(lia)) as (o & Ho & Hl).
    cbn [seen_loop]. unfold getSubfileInfo.
    rewrite (decide_False (P := Len arr <= 23)) by lia.
    rewrite Ho, bind_Returns, Hl, !bind_Returns. cbn [Length].
    rewrite (decide_True (P := 0 = 0)) by reflexivity.
    apply IH. intros j Hj. apply Hslots. lia.
Qed.

Lemma archive_length : Len inside_index_archive = 80008.
Proof.
  unfold inside_index_archive, Len, len.
  rewrite length_app, length_replicate. reflexivity.
Qed.

Lemma archive_not_marked :
  exists m, Read inside_index_archive 0 23 = Returns m /\ m <> emptyArcMagic.
Proof. eexists. split; [vm_compute; reflexivity | vm_compute; discriminate]. Qed.

Lemma archive_slot_0 :
  getSubfileInfo inside_index_archive 0 = Returns (mkSeenEntry 8 80000).
Proof. vm_compute. reflexivity. Qed.

Lemma archive_slot_0_valid :
  slot_valid inside_index_archive (mkSeenEntry 8 80000) = Returns true.
Proof. vm_compute. reflexivity. Qed.

Lemma archive_slot_1 :
  exists o, GetInt inside_index_archive (1 * 8) = Returns o
            /\ GetInt inside_index_archive (1 * 8 + 4) = Returns 0.
Proof. eexists. split; vm_compute; reflexivity. Qed.

(** One round of the loop on a non-empty slot that passes the test. *)
Lemma seen_loop_step (n : nat) (arr : Buffer) (i count : Z) (entry : SeenEntry) :
  getSubfileInfo arr i = Returns entry ->
  Length entry <> 0 ->
  slot_valid arr entry = Returns true ->
  seen_loop (S n) arr i count = seen_loop n arr (i + 1) (count + 1).
Proof.
  intros He Hl Hv. cbn [seen_loop].
  rewrite He, bind_Returns.
  rewrite (decide_False (P := Length entry = 0)) by exact Hl.
  rewrite Hv, bind_Returns. reflexivity.
Qed.

Lemma max_seens_succ : Z.to_nat MaxSeens = S (Z.to_nat 9999).
Proof. reflexivity. Qed.

Lemma archive_is_bytecode_at_8 :
  Bytecode.IsBytecode inside_index_archive 8 = Returns true.
Proof. vm_compute. reflexivity. Qed.

Lemma archive_rest_empty :
  forall j, 0 + 1 <= j < 0 + 1 + Z.of_nat (Z.to_nat 9999) ->
    exists o, GetInt inside_index_archive (j * 8) = Returns o
              /\ GetInt inside_index_archive (j * 8 + 4) = Returns 0.
Proof.
  intros j Hj. rewrite Z2Nat.id in Hj by discriminate.
  destruct (decide (j = 1)) as [->|Hne].
  - exact archive_slot_1.
  - exists 0. unfold inside_index_archive.
    assert (len index_head = 12) as Hh by reflexivity.
    split; apply GetInt_zeros; rewrite Hh, ?Z2Nat.id by discriminate; lia.
Qed.

(** C4, on the code.  In this archive slot 0 has offset 8, far below
    80 000; its end, 80 008, is past the index and within the buffer, and
    the bytes at offset 8 are a bytecode magic.  [SeenCount] counts the
    slot and returns 1, not a negative value. *)
Theorem SeenCount_accepts_offset_inside_index :
  getSubfileInfo inside_index_archive 0 = Returns (mkSeenEntry 8 80000)
  /\ 8 < IndexSize
  /\ Bytecode.IsBytecode inside_index_archive 8 = Returns true
  /\ SeenCount inside_index_archive = Returns 1.
Proof.
  split; [exact archive_slot_0|]. split; [reflexivity|].
  split; [exact archive_is_bytecode_at_8|].
  unfold SeenCount. rewrite archive_length.
  rewrite (decide_True (P := 80008 >= 23)) by lia.
  destruct archive_not_marked as (m & -> & Hm).
  rewrite !bind_Returns.
  rewrite bool_decide_eq_false_2 by exact Hm.
  rewrite (decide_False (P := 80008 < IndexSize)) by (unfold IndexSize, MaxSeens; lia).
  rewrite max_seens_succ.
  rewrite (seen_loop_step _ _ _ _ _ archive_slot_0 ltac:(discriminate) archive_slot_0_valid).
  transitivity (Returns (A := Z) (0 + 1)); [|reflexivity].
  apply seen_loop_empty_slots.
  - rewrite archive_length. lia.
  - exact archive_rest_empty.
Qed.

End ArchiveValidator.

(** ** The range grammar *)

Section RangeGrammar.
Import Kprl.

Lemma sort_Ints_sorted (l : list Z) : Sorted Z.le (GoLib.sort_Ints l).
Proof. unfold GoLib.sort_Ints. apply (Sorted_merge_sort Z.le). Qed.

Lemma sort_Ints_permutation (l : list Z) : GoLib.sort_Ints l ≡ₚ l.
Proof. unfold GoLib.sort_Ints. apply merge_sort_Permutation. Qed.

(** C7, as amended.  The list returned by [ParseRanges] is in ascending
    order; an index selected more than once is returned as often as it
    was selected. *)
Theorem ParseRanges_sorted :
  forall (args : list string) (r : list Z),
    ParseRanges args = Returns r -> Sorted Z.le r.
Proof.
  intros args r. unfold ParseRanges. destruct args as [|a args].
  - intros [= <-]. constructor.
  - destruct (parse_args (a :: args) [] ∅) as [[result excluded]| | |];
      simpl; try discriminate.
    intros [= <-]. apply sort_Ints_sorted.
Qed.

Lemma ParseRanges_sorted_witness :
  ParseRanges ["0-10"; "!3-5"; "7"] = Returns [0; 1; 2; 6; 7; 7; 8; 9; 10]
  /\ Sorted Z.le [0; 1; 2; 6; 7; 7; 8; 9; 10].
Proof.
  assert (ParseRanges ["0-10"; "!3-5"; "7"] = Returns [0; 1; 2; 6; 7; 7; 8; 9; 10]) as H
    by (vm_compute; reflexivity).
  split; [exact H|].
  exact (ParseRanges_sorted _ _ H).
Defined.

(** C7, as stated, fails: the arguments ["5"] and ["5-6"] yield
    [[5, 5, 6]], in which 5 occurs twice. *)
Lemma ParseRanges_keeps_duplicates :
  ParseRanges ["5"; "5-6"] = Returns [5; 5; 6]
  /\ ~ NoDup [5; 5; 6]
  /\ [5; 5; 6] <> [5; 6].
Proof.
  split; [vm_compute; reflexivity|]. split.
  - intros H. apply NoDup_cons in H as [Hin _]. apply Hin. left.
  - discriminate.
Qed.

End RangeGrammar.

(** ** The Siglus LZ77 encoder *)

Section SiglusCodec.
Import Siglus Inputs.

Lemma match_loop_le (n : nat) buf start pos maxMatch :
  forall matchLen r,
    matchLen <= maxMatch ->
    match_loop n buf start pos maxMatch matchLen = Returns r -> r <= maxMatch.
Proof.
  induction n as [|n IH]; intros matchLen r Hle H; simpl in H.
  - destruct (decide (matchLen < maxMatch)); [discriminate|].
    injection H as <-. exact Hle.
  - destruct (decide (matchLen < maxMatch)).
    + destruct (index buf (start + matchLen)) as [a| | |]; simpl in H; try discriminate.
      destruct (index buf (pos + matchLen)) as [b| | |]; simpl in H; try discriminate.
      destruct (decide (a = b)).
      * apply (IH (matchLen + 1)); [lia | exact H].
      * injection H as <-. exact Hle.
    + injection H as <-. exact Hle.
Qed.

Lemma search_loop_le (n : nat) buf pos maxSearch maxMatch :
  0 <= maxMatch ->
  forall off bestOff bestLen bo bl,
    bestLen <= maxMatch ->
    search_loop n buf pos maxSearch maxMatch off bestOff bestLen = Returns (bo, bl) ->
    bl <= maxMatch.
Proof.
  intros Hmax. induction n as [|n IH]; intros off bestOff bestLen bo bl Hle H; simpl in H.
  - destruct (decide (off <= maxSearch)); [discriminate|].
    injection H as <- <-. exact Hle.
  - destruct (decide (off <= maxSearch)).
    + destruct (match_loop (Z.to_nat maxMatch) buf (pos - off) pos maxMatch 0)
        as [matchLen| | |] eqn:Em; simpl in H; try discriminate.
      pose proof (match_loop_le _ _ _ _ _ _ _ Hmax Em) as Hm.
      destruct (decide (matchLen > bestLen)).
      * destruct (decide (matchLen = maxMatch)).
        -- injection H as <- <-. exact Hm.
        -- apply (IH _ _ _ _ _ Hm H).
      * destruct (decide (bestLen = maxMatch)).
        -- injection H as <- <-. exact Hle.
        -- apply (IH _ _ _ _ _ Hle H).
    + injection H as <- <-. exact Hle.
Qed.

(** A back-reference never reaches past the end of the input. *)
Lemma searchData_within (buf : list Z) (pos offset mlen : Z) :
  searchData buf pos = Returns (offset, mlen) ->
  offset = 0 \/ pos + (mlen + 2) <= len buf.
Proof.
  unfold searchData, acceptLevel, level. intros H.
  destruct (decide (pos < 3)); [injection H as <- <-; left; reflexivity|].
  set (maxSearch := if decide (pos > lookback) then lookback else pos) in H.
  set (maxMatch := if decide (pos + 17 > len buf) then len buf - pos else 17) in H.
  destruct (decide (maxMatch < 3)); [injection H as <- <-; left; reflexivity|].
  destruct (search_loop (Z.to_nat maxSearch) buf pos maxSearch maxMatch 1 0 0)
    as [[bo bl]| | |] eqn:Es; simpl in H; try discriminate.
  apply search_loop_le in Es; [|lia|lia].
  destruct (decide (bl < 3)); [injection H as <- <-; left; reflexivity|].
  injection H as <- <-. right.
  subst maxMatch. destruct (decide (pos + 17 > len buf)); lia.
Qed.

Lemma compress_ops_within (inp : list Z) (n : nat) :
  forall i st ctrlByte st' ctrlByte',
    c_inPos st <= len inp ->
    compress_ops n inp i st ctrlByte = Returns (st', ctrlByte') ->
    c_inPos st' <= len inp.
Proof.
  induction n as [|n IH]; intros i st cb st' cb' Hle H; simpl in H.
  - injection H as <- <-. exact Hle.
  - destruct (decide (c_inPos st >= len inp)); [injection H as <- <-; exact Hle|].
    destruct (searchData inp (c_inPos st)) as [[offset mlen]| | |] eqn:Es;
      simpl in H; try discriminate.
    apply searchData_within in Es.
    destruct (decide (offset = 0)) as [->|Hoff].
    + destruct (index inp (c_inPos st)) as [b| | |]; simpl in H; try discriminate.
      destruct (store _ (c_outPos st) b) as [out'| | |]; simpl in H; try discriminate.
      destruct (decide (c_inPos st + 1 >= len inp)).
      * injection H as <- <-. simpl. lia.
      * apply IH in H; [exact H | simpl; lia].
    + destruct Es as [->|Hin]; [contradiction|].
      destruct (LittleEndian.PutUint16 _ (c_outPos st) (token offset mlen))
        as [out'| | |]; simpl in H; try discriminate.
      destruct (decide (c_inPos st + (mlen + 2) >= len inp)).
      * injection H as <- <-. simpl. lia.
      * apply IH in H; [exact H | simpl; lia].
Qed.

Lemma compress_round_within (inp : list Z) (st st' : cstate) :
  c_inPos st <= len inp ->
  compress_round inp st = Returns st' ->
  c_inPos st' <= len inp.
Proof.
  intros Hle H. unfold compress_round in H.
  destruct (compress_ops 8 inp 0 _ 0) as [[st1 cb]| | |] eqn:Eo;
    simpl in H; try discriminate.
  apply compress_ops_within in Eo; [|exact Hle].
  destruct (decide (c_outPos st < len (c_out st1))).
  - destruct (store (c_out st1) (c_outPos st) cb) as [out'| | |];
      simpl in H; try discriminate.
    injection H as <-. exact Eo.
  - injection H as <-. exact Eo.
Qed.

Lemma compress_loop_never_returns (inp : list Z) (fuel : nat) :
  forall st st',
    c_inPos st <= len inp -> compress_loop fuel inp st <> Returns st'.
Proof.
  induction fuel as [|fuel IH]; intros st st' Hle H; simpl in H.
  - destruct (decide (c_inPos st <= len inp)); [discriminate|contradiction].
  - destruct (decide (c_inPos st <= len inp)); [|contradiction].
    destruct (compress_round inp st) as [st1| | |] eqn:Er; simpl in H; try discriminate.
    apply compress_round_within in Er; [|exact Hle].
    exact (IH st1 st' Er H).
Qed.

(** C1, on the code: the encoder.  The outer loop of [Compress] runs
    while [inPos <= srcLen], and no operation moves [inPos] past [srcLen]:
    once the input is consumed the loop goes on reserving control bytes.
    Whatever the input and however much fuel the loop is given,
    [Compress] does not return a frame. *)
Theorem Compress_never_returns :
  forall (fuel : nat) (inp : list Z), returned (Compress fuel inp) = false.
Proof.
  intros fuel inp. unfold Compress.
  destruct (compress_loop fuel inp (compress_init inp)) as [st| | |] eqn:El;
    try reflexivity.
  exfalso. apply compress_loop_never_returns in El; [exact El|].
  simpl. unfold len. lia.
Qed.

(** C1, on the code: the token.  A match lying 4 096 bytes back is found
    and accepted by [searchData]; its 16-bit token has no room for the
    offset, which the decoder reads back as 0.  Encoding [far_match_input]
    until its 4 099 bytes are consumed and decoding the 527-byte frame
    yields three zero bytes where the input ends in [1 2 3]. *)
Theorem window_4096_token_loses_offset :
  searchData far_match_input 4096 = Returns (4096, 1)
  /\ Z.shiftr (token 4096 1) 4 = 0
  /\ len far_match_input = 4099
  /\ drop 4096 far_match_input = [1; 2; 3]
  /\ far_match_trace = Returns (4099, 527, [0; 0; 0]).
Proof.
  split; [vm_compute; reflexivity|]. split; [reflexivity|].
  split; [reflexivity|]. split; [reflexivity|].
  vm_compute. reflexivity.
Qed.

End SiglusCodec.
